(** * View handlers of the 1327 document management application

    A shallow embedding of [_1327/documents/views.py] and
    [_1327/minutes/views.py].  Handlers are functions from a request to a
    computation over the persistent store that either returns an HTTP
    response or raises a Python exception.  Collaborators that live outside
    the two source files (permission backend, revision plugin, upload
    handler, markdown renderer, settings) are gathered in one record of
    injected interfaces. *)

From Stdlib Require Import ZArith String Ascii List Lia Bool.
From stdpp Require Import base gmap strings list fin_maps sorting.

Local Open Scope Z_scope.

(** ** Python strings *)

(** [str.lower()] on byte strings: only the letters A..Z change. *)
Definition lower_ascii (c : ascii) : ascii :=
  let n := nat_of_ascii c in
  if (Nat.leb 65 n && Nat.leb n 90)%bool then ascii_of_nat (n + 32) else c.

Fixpoint lower (s : string) : string :=
  match s with
  | EmptyString => EmptyString
  | String c s' => String (lower_ascii c) (lower s')
  end.

(** [s.split(sep)] for a one-character separator; never the empty list. *)
Fixpoint split (sep : ascii) (s : string) : list string :=
  match s with
  | EmptyString => [EmptyString]
  | String c s' =>
      if Ascii.eqb c sep then EmptyString :: split sep s'
      else match split sep s' with
           | [] => [String c EmptyString]
           | w :: ws => String c w :: ws
           end
  end.

(** [l[-1]] on a list of strings ([split] never yields the empty list). *)
Definition last_item (l : list string) : string := List.last l EmptyString.

(** [s.startswith(p)] *)
Fixpoint starts_with (p s : string) : bool :=
  match p, s with
  | EmptyString, _ => true
  | String _ _, EmptyString => false
  | String a p', String b s' => Ascii.eqb a b && starts_with p' s'
  end.

(** [needle in hay] for strings. *)
Fixpoint str_contains (needle hay : string) : bool :=
  starts_with needle hay ||
  match hay with
  | EmptyString => false
  | String _ hay' => str_contains needle hay'
  end.

(** Characters that [int()] strips from both ends of its argument. *)
Definition py_isspace (c : ascii) : bool :=
  let n := nat_of_ascii c in
  (Nat.leb 9 n && Nat.leb n 13) || (Nat.leb 28 n && Nat.leb n 32).

Fixpoint lstrip (s : string) : string :=
  match s with
  | EmptyString => EmptyString
  | String c s' => if py_isspace c then lstrip s' else s
  end.

Definition strip (s : string) : string :=
  String.rev (lstrip (String.rev (lstrip s))).

Fixpoint digits_to_Z (acc : Z) (s : string) : option Z :=
  match s with
  | EmptyString => Some acc
  | String c s' =>
      match Ascii.is_nat c with
      | Some d => digits_to_Z (10 * acc + Z.of_nat d) s'
      | None => None
      end
  end.

Definition parse_digits (s : string) : option Z :=
  match s with
  | EmptyString => None
  | _ => digits_to_Z 0 s
  end.

(** The builtin [int(s)] on a byte string: surrounding whitespace, an
    optional sign, then at least one decimal digit (no digit-group
    underscores).  [None] stands for the [ValueError] the builtin raises. *)
Definition py_int (s : string) : option Z :=
  match strip s with
  | String "+"%char d => parse_digits d
  | String "-"%char d => Z.opp <$> parse_digits d
  | d => parse_digits d
  end.

(** [os.path.join(a, b)] on POSIX paths. *)
Definition ends_with_slash (s : string) : bool :=
  match String.rev s with
  | String "/"%char _ => true
  | _ => false
  end.

Definition os_path_join (a b : string) : string :=
  match b with
  | String "/"%char _ => b
  | _ => if (String.eqb a EmptyString || ends_with_slash a)%bool then a +:+ b
         else a +:+ "/" +:+ b
  end.

(** One double-quote character. *)
Definition dquote : string := String (ascii_of_nat 34) EmptyString.

(** ** Data model *)

(** Field values as they appear in model instances and in the snapshots
    the revision plugin stores. *)
Inductive Value :=
  | VNone
  | VBool (b : bool)
  | VInt (n : Z)
  | VStr (s : string)
  | VDate (year month day : Z)
  | VPks (pks : list Z).

(** [bool(v)] *)
Definition py_bool (v : Value) : bool :=
  match v with
  | VNone => false
  | VBool b => b
  | VInt n => negb (n =? 0)
  | VStr s => negb (String.eqb s EmptyString)
  | VDate _ _ _ => true
  | VPks l => match l with [] => false | _ => true end
  end.

(** [request.user]: the primary key and the two flags the handlers and the
    permission backend look at. *)
Record User := {
  user_pk : Z;
  is_authenticated : bool;
  is_superuser : bool;
}.

(** One row of the attachment table. *)
Record Attachment := {
  att_document : Z;
  att_displayname : string;
  att_index : Z;
  att_no_direct_download : bool;
  att_file : string;
}.

(** One stored version: the snapshot [field_dict] of one object, and the
    comment of the revision it belongs to. *)
Record Version := {
  version_pk : Z;
  version_object_id : Z;
  field_dict : gmap string Value;
  revision_comment : string;
}.

(** The metadata [create_revision] records for a new revision. *)
Record Revision := {
  rev_user : Z;
  rev_comment : string;
}.

(** The persistent state the handlers read and write: document rows keyed
    by primary key (column name to value), many-to-many membership per
    (document, field), attachments, stored versions, the revision log, the
    files in media storage and the user-facing notifications. *)
Record Store := {
  documents : gmap Z (gmap string Value);
  relations : gmap (Z * string) (gset Z);
  attachments : gmap Z Attachment;
  versions : list Version;
  revisions : list Revision;
  files : gset string;
  messages : list string;
}.

Definition set_documents (f : gmap Z (gmap string Value) → gmap Z (gmap string Value))
    (st : Store) : Store :=
  {| documents := f (documents st); relations := relations st;
     attachments := attachments st; versions := versions st;
     revisions := revisions st; files := files st; messages := messages st |}.

Definition set_relations (f : gmap (Z * string) (gset Z) → gmap (Z * string) (gset Z))
    (st : Store) : Store :=
  {| documents := documents st; relations := f (relations st);
     attachments := attachments st; versions := versions st;
     revisions := revisions st; files := files st; messages := messages st |}.

Definition set_attachments (f : gmap Z Attachment → gmap Z Attachment)
    (st : Store) : Store :=
  {| documents := documents st; relations := relations st;
     attachments := f (attachments st); versions := versions st;
     revisions := revisions st; files := files st; messages := messages st |}.

Definition add_revision (r : Revision) (st : Store) : Store :=
  {| documents := documents st; relations := relations st;
     attachments := attachments st; versions := versions st;
     revisions := revisions st ++ [r]; files := files st; messages := messages st |}.

Definition remove_file (name : string) (st : Store) : Store :=
  {| documents := documents st; relations := relations st;
     attachments := attachments st; versions := versions st;
     revisions := revisions st; files := files st ∖ {[name]}; messages := messages st |}.

Definition add_message (m : string) (st : Store) : Store :=
  {| documents := documents st; relations := relations st;
     attachments := attachments st; versions := versions st;
     revisions := revisions st; files := files st; messages := messages st ++ [m] |}.

(** ** Requests and responses *)

(** A [QueryDict] as the sequence of key/value pairs of the decoded form
    body or query string. *)
Definition QueryDict := list (string * string).

(** [d.get(k)]: the last value submitted for [k]. *)
Fixpoint qd_get (d : QueryDict) (k : string) : option string :=
  match d with
  | [] => None
  | (k', v) :: d' =>
      match qd_get d' k with
      | Some v' => Some v'
      | None => if String.eqb k' k then Some v else None
      end
  end.

(** The distinct keys, in order of first appearance. *)
Fixpoint qd_keys (d : QueryDict) : list string :=
  match d with
  | [] => []
  | (k, _) :: d' => k :: List.filter (fun k' => negb (String.eqb k' k)) (qd_keys d')
  end.

(** [d._iteritems()]: every key once, with [d[key]]. *)
Definition qd_iteritems (d : QueryDict) : list (string * string) :=
  List.map (fun k => (k, default EmptyString (qd_get d k))) (qd_keys d).

(** Truth value of a [QueryDict]: false when it has no key. *)
Definition qd_truthy (d : QueryDict) : bool :=
  match d with [] => false | _ => true end.

Record Request := {
  method : string;
  is_ajax : bool;
  query : QueryDict;
  form : QueryDict;
  user : User;
}.

(** [request.GET] is the query string; [request.POST] is the form body of
    a POST request and empty for every other method. *)
Definition GET (request : Request) : QueryDict := query request.

Definition POST (request : Request) : QueryDict :=
  if String.eqb (method request) "POST" then form request else [].

Definition Form := string.

(** The guest form set bound to [request.POST or None] and a document. *)
Record Formset := {
  formset_data : option QueryDict;
  formset_instance : Z;
}.

Inductive Body :=
  | BodyEmpty
  | BodyText (s : string)
  | BodyId (pk : Z)
  | BodyJson (data : gmap Z string).

Inductive CtxValue :=
  | CtxStr (s : string)
  | CtxStrings (l : list string)
  | CtxDocument (pk : Z)
  | CtxDocuments (pks : list Z)
  | CtxAttachments (atts : list (Z * Attachment))
  | CtxYears (years : list (Z * list Z))
  | CtxForm (f : Form)
  | CtxFormset (f : Formset)
  | CtxWarning (w : option string).

Inductive Response :=
  | HttpResponse (body : Body)
  | HttpResponseBadRequest (body : Body)
  | HttpResponseForbidden
  | HttpResponseServerError (body : Body)
  | HttpResponseRedirect (url : string)
  | Render (template : string) (context : list (string * CtxValue))
  | FileResponse (filename : string) (as_attachment : bool) (attachment_filename : string).

(** ** Computations: state and exceptions *)

Inductive Exn :=
  | Http404
  | PermissionDenied
  | KeyError
  | ValueError
  | TypeError
  | AttributeError
  | DoesNotExist
  | MultipleObjectsReturned
  | IntegrityError.

Inductive Result (A : Type) :=
  | Ok (a : A)
  | Raise (e : Exn).
Arguments Ok {A} a.
Arguments Raise {A} e.

Definition M (A : Type) : Type := Store → Result A * Store.

Definition ret {A} (a : A) : M A := fun st => (Ok a, st).

Definition raise {A} (e : Exn) : M A := fun st => (Raise e, st).

Definition bind {A B} (m : M A) (k : A → M B) : M B :=
  fun st =>
    match m st with
    | (Ok a, st') => k a st'
    | (Raise e, st') => (Raise e, st')
    end.

Definition lift {A} (r : Result A) : M A := fun st => (r, st).

Definition get_store : M Store := fun st => (Ok st, st).

Definition modify (f : Store → Store) : M unit := fun st => (Ok tt, f st).

(** [with transaction.atomic():] the block's writes are undone when it
    raises, and the exception goes on. *)
Definition atomic {A} (m : M A) : M A :=
  fun st =>
    match m st with
    | (Ok a, st') => (Ok a, st')
    | (Raise e, _) => (Raise e, st)
    end.

Declare Scope py_scope.
Delimit Scope py_scope with py.
Notation "x <~ c ;; k" := (bind c (fun x => k))
  (at level 100, c at next level, right associativity) : py_scope.
Notation "c ;;; k" := (bind c (fun _ => k))
  (at level 100, right associativity) : py_scope.
Local Open Scope py_scope.

(** [for x in l: body(x)] *)
Fixpoint for_each {A} (l : list A) (body : A → M unit) : M unit :=
  match l with
  | [] => ret tt
  | x :: l' => body x ;;; for_each l' body
  end.

(** [d[k]] on a [QueryDict] raises [MultiValueDictKeyError], a [KeyError]. *)
Definition qd_getitem (d : QueryDict) (k : string) : M string :=
  match qd_get d k with
  | Some v => ret v
  | None => raise KeyError
  end.

(** Conversion of a primary-key or integer-field argument by the ORM. *)
Definition to_int (s : string) : M Z :=
  match py_int s with
  | Some n => ret n
  | None => raise ValueError
  end.

(** ** Model classes and injected collaborators *)

(** What [getattr(document_class, key)] can be when it exists: a relation
    descriptor carrying a many-to-many field, one carrying another field
    (with the column name [attname] the field stores under), or an
    attribute with no [.field]. *)
Inductive ClassAttr :=
  | AttrManyToMany
  | AttrField (attname : string)
  | AttrOther.

(** A concrete document class: its content-type id, its class attributes
    and the default value of each column. *)
Record ModelClass := {
  cls_ctype : Z;
  cls_attr : string → option ClassAttr;
  cls_defaults : gmap string Value;
}.

(** The two arguments [has_perm] receives: a permission name or an
    object. *)
Inductive PyArg :=
  | ArgPerm (name : string)
  | ArgDoc (pk : Z).

(** Everything the two view modules import and do not define. *)
Class Env := {
  (* django.contrib.auth / guardian *)
  has_perm : User → PyArg → option PyArg → bool;
  get_objects_for_user : User → string → Z → Store → list Z;
  redirect_to_login : Request → Response;
  (* _1327.documents.models *)
  can_be_changed_by : Z → User → bool;
  VIEW_PERMISSION_NAME : Z → string;
  MinutesDocument_class : ModelClass;
  MinutesDocument_VIEW_PERMISSION_NAME : string;
  MinutesDocument_get_view_permission : string;
  InformationDocument_VIEW_PERMISSION_NAME : string;
  InformationDocument_ctype : Z;
  Poll_VIEW_PERMISSION_NAME : string;
  Poll_ctype : Z;
  (* django.contrib.contenttypes *)
  content_type_model_class : Z → option ModelClass;
  (* reversion *)
  revision_revert : Version → Store → bool * Store;
  (* _1327.documents.utils *)
  handle_attachment : Request → Z → Store → (bool * Form * option Z) * Store;
  handle_edit : Request → Z → Formset → Store → (bool * Form) * Store;
  permission_warning : User → Z → option string;
  delete_old_empty_pages : Store → Store;
  (* settings *)
  SUPPORTED_IMAGE_TYPES : list string;
  MEDIA_ROOT : string;
  (* sendfile, json, markdown, django.utils *)
  sendfile : Request → string → bool → string → Result Response;
  json_loads : string → option Value;
  markdown_convert : string → string * string;
  slugify : string → string;
  ugettext : string → string;
  reverse : string → list string → string;
}.

(** The model classes the handlers name. *)
Inductive Klass :=
  | Document
  | MinutesDocument.

Section Views.
Context {E : Env}.

(** ** Object-relational mapper *)

(** [isinstance(row, klass)] through the polymorphic content-type column. *)
Definition instance_of (klass : Klass) (row : gmap string Value) : bool :=
  match klass with
  | Document => true
  | MinutesDocument =>
      match row !! "polymorphic_ctype_id" with
      | Some (VInt c) => c =? cls_ctype MinutesDocument_class
      | _ => false
      end
  end.

Definition has_url_title (url_title : string) (row : gmap string Value) : bool :=
  match row !! "url_title" with
  | Some (VStr s) => String.eqb s url_title
  | _ => false
  end.

(** [klass.objects.filter(url_title=...)], as primary keys. *)
Definition documents_by_url_title (klass : Klass) (url_title : string)
    (st : Store) : list Z :=
  fst <$> List.filter
    (fun kv => instance_of klass (snd kv) && has_url_title url_title (snd kv))
    (map_to_list (documents st)).

(** Modelled from the spec: [get_object_or_error] of
    [_1327.user_management.shortcuts] is not among the source files.  It is
    the permission gate of the spec: the target document is resolved by its
    url title ([NotFound] when there is none), then every listed permission
    is checked for the requesting identity on that document through the
    authorization library ([Forbidden] when one is lacking). *)
Definition get_object_or_error (klass : Klass) (u : User)
    (permissions : list string) (url_title : string) : M Z :=
  fun st =>
    match documents_by_url_title klass url_title st with
    | [] => (Raise Http404, st)
    | [pk] =>
        if forallb (fun p => has_perm u (ArgPerm p) (Some (ArgDoc pk))) permissions
        then (Ok pk, st)
        else (Raise PermissionDenied, st)
    | _ => (Raise MultipleObjectsReturned, st)
    end.

(** [Document.objects.get(pk=...)] *)
Definition Document_objects_get (pk : Z) : M Z :=
  fun st =>
    match documents st !! pk with
    | Some _ => (Ok pk, st)
    | None => (Raise DoesNotExist, st)
    end.

(** [Attachment.objects.get(pk=...)] *)
Definition Attachment_objects_get (pk : string) : M (Z * Attachment) :=
  n <~ to_int pk ;;
  fun st =>
    match attachments st !! n with
    | Some a => (Ok (n, a), st)
    | None => (Raise DoesNotExist, st)
    end.

(** [get_object_or_404(Attachment, pk=...)] *)
Definition get_attachment_or_404 (pk : string) : M (Z * Attachment) :=
  n <~ to_int pk ;;
  fun st =>
    match attachments st !! n with
    | Some a => (Ok (n, a), st)
    | None => (Raise Http404, st)
    end.

(** [document.attachments.all()] *)
Definition document_attachments (document : Z) (st : Store) : list (Z * Attachment) :=
  List.filter (fun kv => att_document (snd kv) =? document)
    (map_to_list (attachments st)).

(** [attachment.save()] *)
Definition save_attachment (pk : Z) (a : Attachment) : M unit :=
  modify (set_attachments (fun m => <[pk := a]> m)).

(** The primary key an INSERT assigns. *)
Definition next_pk {A} (m : gmap Z A) : Z :=
  1 + foldr Z.max 0 (fst <$> map_to_list m).

(** Every keyword argument names a column of the class. *)
Definition accepts (document_class : ModelClass) (kwargs : gmap string Value) : bool :=
  bool_decide (dom kwargs ⊆ dom (cls_defaults document_class)).

(** The constructor called with keyword arguments: every column takes its
    keyword argument or else its default; a keyword that is no column is a
    [TypeError]. *)
Definition construct (document_class : ModelClass) (kwargs : gmap string Value)
    : M (gmap string Value) :=
  if accepts document_class kwargs
  then ret (kwargs ∪ cls_defaults document_class)
  else raise TypeError.

(** [instance.save()]: the polymorphic content type is filled in, and the
    row is written under the instance's [id], or under a new primary key
    when it has none. *)
Definition save (document_class : ModelClass) (instance : gmap string Value) : M Z :=
  let row := <["polymorphic_ctype_id" := VInt (cls_ctype document_class)]> instance in
  match instance !! "id" with
  | Some (VInt pk) =>
      modify (set_documents (fun m => <[pk := row]> m)) ;;; ret pk
  | Some VNone | None =>
      st <~ get_store ;;
      let pk := next_pk (documents st) in
      modify (set_documents (fun m => <[pk := <["id" := VInt pk]> row]> m)) ;;; ret pk
  | Some _ => raise ValueError
  end.

(** [getattr(instance, key).clear()] *)
Definition relation_clear (pk : Z) (key : string) : M unit :=
  modify (set_relations (fun r => <[(pk, key) := ∅]> r)).

(** [getattr(instance, key).add] applied to the unpacked [value] *)
Definition relation_add (pk : Z) (key : string) (value : Value) : M unit :=
  match value with
  | VPks l =>
      modify (set_relations (fun r =>
        <[(pk, key) := default ∅ (r !! (pk, key)) ∪ list_to_set l]> r))
  | _ => raise TypeError
  end.

(** [revisions.get_for_object(document)] *)
Definition get_for_object (document : Z) (st : Store) : list Version :=
  List.filter (fun v => version_object_id v =? document) (versions st).

(** [ContentType.objects.get_for_id(v).model_class()] *)
Definition get_model_class (v : Value) : M ModelClass :=
  match v with
  | VInt c =>
      match content_type_model_class c with
      | Some cls => ret cls
      | None => raise DoesNotExist
      end
  | VStr s =>
      c <~ to_int s ;;
      match content_type_model_class c with
      | Some cls => ret cls
      | None => raise DoesNotExist
      end
  | VNone => raise DoesNotExist
  | _ => raise TypeError
  end.

(** ** [_1327/documents/views.py] *)

(** The scan of [revert] for the version to revert to: the first version
    whose primary key equals [int(version_id)]; the conversion is
    evaluated at every version visited. *)
Fixpoint find_version (versions : list Version) (version_id : string)
    : Result (option Version) :=
  match versions with
  | [] => Ok None
  | version :: rest =>
      match py_int version_id with
      | None => Raise ValueError
      | Some n =>
          if version_pk version =? n then Ok (Some version)
          else find_version rest version_id
      end
  end.

(** One round of the loop of [revert] over the snapshot's keys; the pair is
    ([new_fields], [many_to_many_fields]) and [value] is [fields[key]]. *)
Definition revert_field (document_class : ModelClass)
    (acc : gmap string Value * gmap string Value) (item : string * Value)
    : Result (gmap string Value * gmap string Value) :=
  let '(new_fields, many_to_many_fields) := acc in
  let '(key, value) := item in
  if str_contains "_ptr" key then Ok (delete key new_fields, many_to_many_fields)
  else
    match cls_attr document_class key with
    | None => Ok (new_fields, many_to_many_fields)
    | Some AttrOther => Raise AttributeError
    | Some AttrManyToMany =>
        Ok (delete key new_fields, <[key := value]> many_to_many_fields)
    | Some (AttrField attname) =>
        Ok (delete key (<[attname := value]> new_fields), many_to_many_fields)
    end.

Fixpoint revert_fields (document_class : ModelClass)
    (items : list (string * Value))
    (acc : gmap string Value * gmap string Value)
    : Result (gmap string Value * gmap string Value) :=
  match items with
  | [] => Ok acc
  | item :: rest =>
      match revert_field document_class acc item with
      | Ok acc' => revert_fields document_class rest acc'
      | Raise e => Raise e
      end
  end.

(** The restoring of the many-to-many relations of the saved document. *)
Definition restore_many_to_many (pk : Z) (many_to_many_fields : gmap string Value)
    : M unit :=
  for_each (map_to_list many_to_many_fields)
    (fun item => relation_clear pk (fst item) ;;; relation_add pk (fst item) (snd item)).

Definition revert_comment (revert_version : Version) : string :=
  ugettext ("reverted to revision " +:+ dquote +:+
            revision_comment revert_version +:+ dquote).

Definition revert (request : Request) : M Response :=
  if negb (is_ajax request) || negb (qd_truthy (POST request)) then raise Http404
  else
    version_id <~ qd_getitem (POST request) "id" ;;
    document_url_title <~ qd_getitem (POST request) "url_title" ;;
    document <~ get_object_or_error Document (user request) ["change_document"]
                  document_url_title ;;
    st <~ get_store ;;
    let versions := get_for_object document st in
    found <~ lift (find_version versions version_id) ;;
    match found with
    | None => ret (HttpResponseBadRequest (BodyText "Could not find document"))
    | Some revert_version =>
        reverted <~ (fun st => let '(ok, st') := revision_revert revert_version st in
                               (Ok ok, st')) ;;
        if negb reverted
        then ret (HttpResponseServerError (BodyText "Could not revert the version"))
        else
          match field_dict revert_version !! "polymorphic_ctype" with
          | None => raise KeyError
          | Some ctype =>
              let fields := delete "polymorphic_ctype" (field_dict revert_version) in
              document_class <~ get_model_class ctype ;;
              split_fields <~ lift (revert_fields document_class (map_to_list fields)
                                      (fields, ∅)) ;;
              let '(new_fields, many_to_many_fields) := split_fields in
              reverted_document <~ construct document_class new_fields ;;
              atomic (
                pk <~ save document_class reverted_document ;;
                restore_many_to_many pk many_to_many_fields ;;;
                modify (add_revision {| rev_user := user_pk (user request);
                                        rev_comment := revert_comment revert_version |})) ;;;
              ret (HttpResponse BodyEmpty)
          end
    end.

Definition create_attachment (request : Request) : M Response :=
  if negb (is_ajax request) || negb (String.eqb (method request) "POST")
  then raise Http404
  else
    document_id <~ qd_getitem (POST request) "document" ;;
    pk <~ to_int document_id ;;
    document <~ Document_objects_get pk ;;
    if negb (can_be_changed_by document (user request)) then ret HttpResponseForbidden
    else
      handled <~ (fun st => let '(r, st') := handle_attachment request document st in
                            (Ok r, st')) ;;
      let '(success, _, attachment) := handled in
      if success then
        match attachment with
        | Some attachment_id => ret (HttpResponse (BodyId attachment_id))
        | None => raise AttributeError
        end
      else ret (HttpResponseBadRequest BodyEmpty).

Definition delete_attachment (request : Request) : M Response :=
  if is_ajax request && String.eqb (method request) "POST" then
    attachment_id <~ qd_getitem (POST request) "id" ;;
    found <~ Attachment_objects_get attachment_id ;;
    let '(pk, attachment) := found in
    let document := att_document attachment in
    if negb (can_be_changed_by document (user request)) then ret HttpResponseForbidden
    else
      modify (remove_file (os_path_join MEDIA_ROOT (att_file attachment))) ;;;
      modify (set_attachments (fun m => delete pk m)) ;;;
      modify (add_message (ugettext "Successfully deleted Attachment!")) ;;;
      ret (HttpResponse BodyEmpty)
  else raise Http404.

Definition download_attachment (request : Request) : M Response :=
  if negb (String.eqb (method request) "GET") then ret (HttpResponseBadRequest BodyEmpty)
  else
    attachment_id <~ qd_getitem (GET request) "attachment_id" ;;
    found <~ get_attachment_or_404 attachment_id ;;
    let '(_, attachment) := found in
    let document := att_document attachment in
    if negb (has_perm (user request) (ArgPerm (VIEW_PERMISSION_NAME document))
               (Some (ArgDoc document)))
    then ret HttpResponseForbidden
    else
      let filename := os_path_join MEDIA_ROOT (att_file attachment) in
      let is_attachment :=
        negb (match qd_get (GET request) "embed" with
              | Some v => negb (String.eqb v EmptyString)
              | None => false
              end) in
      lift (sendfile request filename is_attachment (att_displayname attachment)).

(** The body of the loop of [update_attachment_order]; [None] is the early
    [return HttpResponseForbidden()]. *)
Definition update_one (request : Request) (item : string * string) : M (option unit) :=
  let '(pk, index) := item in
  found <~ get_attachment_or_404 pk ;;
  let '(n, attachment) := found in
  let document := att_document attachment in
  if negb (can_be_changed_by document (user request)) then ret None
  else
    i <~ to_int index ;;
    save_attachment n {| att_document := att_document attachment;
                         att_displayname := att_displayname attachment;
                         att_index := i;
                         att_no_direct_download := att_no_direct_download attachment;
                         att_file := att_file attachment |} ;;;
    ret (Some tt).

Fixpoint update_all (request : Request) (items : list (string * string)) : M Response :=
  match items with
  | [] => ret (HttpResponse BodyEmpty)
  | item :: rest =>
      r <~ update_one request item ;;
      match r with
      | None => ret HttpResponseForbidden
      | Some _ => update_all request rest
      end
  end.

(** [data = request.POST] is a [QueryDict], never [None]: of the guard
    only the test of [is_ajax] can fire. *)
Definition update_attachment_order (request : Request) : M Response :=
  let data := POST request in
  if negb (is_ajax request) then raise Http404
  else update_all request (qd_iteritems data).

(** [attachment.displayname.lower().split('.')[-1]] *)
Definition file_type (name : string) : string :=
  last_item (split "."%char (lower name)).

Definition is_supported_image (name : string) : bool :=
  existsb (String.eqb (file_type name)) SUPPORTED_IMAGE_TYPES.

(** The loop of [get_attachments] building [data]. *)
Fixpoint image_data (atts : list (Z * Attachment)) (data : gmap Z string)
    : gmap Z string :=
  match atts with
  | [] => data
  | (pk, attachment) :: rest =>
      if negb (is_supported_image (att_displayname attachment))
      then image_data rest data
      else image_data rest (<[pk := att_displayname attachment]> data)
  end.

Definition get_attachments (request : Request) (document_id : Z) : M Response :=
  if negb (is_ajax request) then raise Http404
  else
    document <~ Document_objects_get document_id ;;
    if negb (can_be_changed_by document (user request)) then ret HttpResponseForbidden
    else
      st <~ get_store ;;
      let attachments := document_attachments document st in
      ret (HttpResponse (BodyJson (image_data attachments ∅))).

Definition change_attachment_no_direct_download (request : Request) : M Response :=
  if negb (qd_truthy (POST request)) || negb (is_ajax request) then raise Http404
  else
    attachment_id <~ qd_getitem (POST request) "id" ;;
    raw <~ qd_getitem (POST request) "no_direct_download" ;;
    match json_loads raw with
    | None => raise ValueError
    | Some no_direct_download =>
        found <~ Attachment_objects_get attachment_id ;;
        let '(pk, attachment) := found in
        if negb (can_be_changed_by (att_document attachment) (user request))
        then ret HttpResponseForbidden
        else
          match no_direct_download with
          | VNone => raise IntegrityError
          | v =>
              save_attachment pk
                {| att_document := att_document attachment;
                   att_displayname := att_displayname attachment;
                   att_index := att_index attachment;
                   att_no_direct_download := py_bool v;
                   att_file := att_file attachment |} ;;;
              ret (HttpResponse BodyEmpty)
          end
    end.

(** ** [_1327/minutes/views.py] *)

(** A stable sort: [leb x y] says that [x] may stand before [y]. *)
Fixpoint insert_sorted {A} (leb : A → A → bool) (x : A) (l : list A) : list A :=
  match l with
  | [] => [x]
  | y :: l' => if leb x y then x :: y :: l' else y :: insert_sorted leb x l'
  end.

Definition sort_by {A} (leb : A → A → bool) (l : list A) : list A :=
  foldr (insert_sorted leb) [] l.

(** The [date] column as a triple; [None] when the column holds no date. *)
Definition row_date (row : gmap string Value) : option (Z * Z * Z) :=
  match row !! "date" with
  | Some (VDate y m d) => Some (y, m, d)
  | _ => None
  end.

Definition date_leb (a b : Z * Z * Z) : bool :=
  let '(y1, m1, d1) := a in
  let '(y2, m2, d2) := b in
  (y1 <? y2) || ((y1 =? y2) && ((m1 <? m2) || ((m1 =? m2) && (d1 <=? d2)))).

(** Order of two rows under [order_by('-date')]; rows without a date go
    last. *)
Definition newer_first (a b : Z * gmap string Value) : bool :=
  match row_date (snd a), row_date (snd b) with
  | Some da, Some db => date_leb db da
  | Some _, None => true
  | None, Some _ => false
  | None, None => true
  end.

(** [MinutesDocument.objects.order_by('-date')] *)
Definition minutes_by_date (st : Store) : list (Z * gmap string Value) :=
  sort_by newer_first
    (List.filter (fun kv => instance_of MinutesDocument (snd kv))
       (map_to_list (documents st))).

(** The loop of [list] filling [years]. *)
Fixpoint group_by_year (u : User) (minutes : list (Z * gmap string Value))
    (years : gmap Z (list Z)) : Result (gmap Z (list Z)) :=
  match minutes with
  | [] => Ok years
  | (pk, row) :: rest =>
      if negb (has_perm u (ArgDoc pk) (Some (ArgPerm MinutesDocument_get_view_permission)))
      then group_by_year u rest years
      else
        match row_date row with
        | None => Raise AttributeError
        | Some (year, _, _) =>
            let years' :=
              match years !! year with
              | None => <[year := []]> years
              | Some _ => years
              end in
            group_by_year u rest
              (<[year := default [] (years' !! year) ++ [pk]]> years')
        end
  end.

(** [sorted(new_years, key=lambda x: x['year'], reverse=True)] *)
Definition sort_years (new_years : list (Z * list Z)) : list (Z * list Z) :=
  sort_by (fun a b => fst b <=? fst a) new_years.

(** [template.format(arg)] for a template with a single replacement field
    [{}] and no other brace. *)
Fixpoint format1 (template arg : string) : string :=
  match template with
  | EmptyString => EmptyString
  | String c rest =>
      if Ascii.eqb c "{" && starts_with "}" rest
      then arg +:+ match rest with String _ rest' => rest' | EmptyString => EmptyString end
      else String c (format1 rest arg)
  end.

Definition column_is (key : string) (v : Value) (row : gmap string Value) : bool :=
  match row !! key, v with
  | Some (VInt a), VInt b => a =? b
  | Some (VStr a), VStr b => String.eqb a b
  | _, _ => false
  end.

(** The keyword arguments of the creation in [create]. *)
Definition minutes_kwargs (author : User) (url_title title : string)
    (moderator : User) : gmap string Value :=
  <["author_id" := VInt (user_pk author)]>
    (<["url_title" := VStr url_title]>
       (<["title" := VStr title]>
          (<["moderator_id" := VInt (user_pk moderator)]> ∅))).

(** [MinutesDocument.objects.get_or_create(author=.., url_title=..,
    title=.., moderator=..)] *)
Definition get_or_create (author : User) (url_title title : string)
    (moderator : User) : M Z :=
  st <~ get_store ;;
  let found :=
    List.filter
      (fun kv => instance_of MinutesDocument (snd kv)
                 && column_is "author_id" (VInt (user_pk author)) (snd kv)
                 && column_is "url_title" (VStr url_title) (snd kv)
                 && column_is "title" (VStr title) (snd kv)
                 && column_is "moderator_id" (VInt (user_pk moderator)) (snd kv))
      (map_to_list (documents st)) in
  match found with
  | [] =>
      instance <~ construct MinutesDocument_class
        (minutes_kwargs author url_title title moderator) ;;
      save MinutesDocument_class instance
  | [kv] => ret (fst kv)
  | _ => raise MultipleObjectsReturned
  end.

(** A string attribute of a document instance. *)
Definition document_str (document : Z) (key : string) : M string :=
  st <~ get_store ;;
  match documents st !! document with
  | Some row =>
      match row !! key with
      | Some (VStr s) => ret s
      | _ => raise AttributeError
      end
  | None => raise AttributeError
  end.

(** [document.attachments.filter(no_direct_download=False).order_by('index')] *)
Definition direct_download_attachments (document : Z) (st : Store)
    : list (Z * Attachment) :=
  sort_by (fun a b => att_index (snd a) <=? att_index (snd b))
    (List.filter (fun kv => negb (att_no_direct_download (snd kv)))
       (document_attachments document st)).

End Views.

(** [document.attachments.all().order_by('index')] *)
Definition attachments_by_index (document : Z) (st : Store) : list (Z * Attachment) :=
  sort_by (fun a b => att_index (snd a) <=? att_index (snd b))
    (document_attachments document st).

(** The handlers of [_1327/minutes/views.py] keep their names inside a
    module of their own. *)
Module Minutes.
Section Handlers.
Context {E : Env}.

Definition edit (request : Request) (title : string) : M Response :=
  document <~ get_object_or_error MinutesDocument (user request)
                ["minutes.change_minutesdocument"] title ;;
  let formset :=
    {| formset_data := if qd_truthy (POST request) then Some (POST request) else None;
       formset_instance := document |} in
  edited <~ (fun st => let '(r, st') := handle_edit request document formset st in
                       (Ok r, st')) ;;
  let '(success, form) := edited in
  attached <~ (fun st => let '(r, st') := handle_attachment request document st in
                         (Ok r, st')) ;;
  let '(_, attachment_form, _) := attached in
  if success then
    modify (add_message (ugettext "Successfully saved changes")) ;;;
    url_title <~ document_str document "url_title" ;;
    ret (HttpResponseRedirect (reverse "minutes:view" [url_title]))
  else
    st <~ get_store ;;
    let minutes :=
      get_objects_for_user (user request) MinutesDocument_VIEW_PERMISSION_NAME
        (cls_ctype MinutesDocument_class) st in
    let information_documents :=
      get_objects_for_user (user request) InformationDocument_VIEW_PERMISSION_NAME
        InformationDocument_ctype st in
    let polls :=
      get_objects_for_user (user request) Poll_VIEW_PERMISSION_NAME Poll_ctype st in
    url_title <~ document_str document "url_title" ;;
    ret (Render "minutes_edit.html"
           [("document", CtxDocument document);
            ("edit_url", CtxStr (reverse "minutes:edit" [url_title]));
            ("form", CtxForm form);
            ("attachment_form", CtxForm attachment_form);
            ("active_page", CtxStr "edit");
            ("guest_formset", CtxFormset formset);
            ("permission_warning", CtxWarning (permission_warning (user request) document));
            ("supported_image_types", CtxStrings SUPPORTED_IMAGE_TYPES);
            ("minutes", CtxDocuments minutes);
            ("information_documents", CtxDocuments information_documents);
            ("polls", CtxDocuments polls)]).

(** [create]; [now] is [str(datetime.now())]. *)
Definition create (request : Request) (now : string) : M Response :=
  if has_perm (user request) (ArgPerm "information_pages.add_informationdocument") None
  then
    modify delete_old_empty_pages ;;;
    let title := format1 (ugettext "New minutes document from {}") now in
    let url_title := slugify title in
    get_or_create (user request) url_title title (user request) ;;;
    edit request url_title
  else ret HttpResponseForbidden.

Definition view (request : Request) (title : string) : M Response :=
  document <~ get_object_or_error MinutesDocument (user request)
                [MinutesDocument_get_view_permission] title ;;
  source <~ document_str document "text" ;;
  let '(text, toc) := markdown_convert source in
  st <~ get_store ;;
  ret (Render "minutes_base.html"
         [("document", CtxDocument document);
          ("text", CtxStr text);
          ("toc", CtxStr toc);
          ("attachments", CtxAttachments (direct_download_attachments document st));
          ("active_page", CtxStr "view");
          ("permission_warning", CtxWarning (permission_warning (user request) document))]).

(** [list], behind [login_required]. *)
Definition list (request : Request) : M Response :=
  if negb (is_authenticated (user request)) then ret (redirect_to_login request)
  else
    st <~ get_store ;;
    let minutes := minutes_by_date st in
    years <~ lift (group_by_year (user request) minutes ∅) ;;
    let new_years := sort_years (map_to_list years) in
    ret (Render "minutes_list.html" [("years", CtxYears new_years)]).

Definition attachments (request : Request) (title : string) : M Response :=
  document <~ get_object_or_error MinutesDocument (user request)
                ["minutes.change_minutesdocument"] title ;;
  handled <~ (fun st => let '(r, st') := handle_attachment request document st in
                        (Ok r, st')) ;;
  let '(success, form, _) := handled in
  if success then
    modify (add_message (ugettext "File has been uploaded successfully!")) ;;;
    url_title <~ document_str document "url_title" ;;
    ret (HttpResponseRedirect (reverse "minutes:attachments" [url_title]))
  else
    url_title <~ document_str document "url_title" ;;
    st <~ get_store ;;
    ret (Render "minutes_attachments.html"
           [("document", CtxDocument document);
            ("edit_url", CtxStr (reverse "minutes:attachments" [url_title]));
            ("form", CtxForm form);
            ("attachments", CtxAttachments (attachments_by_index document st));
            ("active_page", CtxStr "attachments");
            ("permission_warning", CtxWarning (permission_warning (user request) document))]).

End Handlers.
End Minutes.

(** ** A concrete deployment *)

(** The permission check of the authorization library: the permission
    name comes first and the object second.  Superusers hold everything; a
    model-level check (no object) is looked up in [global]; an object-level
    check is looked up in [grants]; any other shape of arguments matches no
    grant. *)
Definition backend_has_perm (global : list (Z * string)) (grants : list (Z * string * Z))
    (u : User) (perm : PyArg) (obj : option PyArg) : bool :=
  if is_superuser u then true
  else
    match perm, obj with
    | ArgPerm name, None =>
        existsb (fun g => (fst g =? user_pk u) && String.eqb (snd g) name) global
    | ArgPerm name, Some (ArgDoc pk) =>
        existsb (fun g => (fst (fst g) =? user_pk u) && String.eqb (snd (fst g)) name
                          && (snd g =? pk)) grants
    | _, _ => false
    end.

Definition minutes_class : ModelClass :=
  {| cls_ctype := 7;
     cls_attr := fun key =>
       if String.eqb key "author" then Some (AttrField "author_id")
       else if String.eqb key "moderator" then Some (AttrField "moderator_id")
       else if String.eqb key "participants" then Some AttrManyToMany
       else None;
     cls_defaults :=
       list_to_map
         [("id", VNone); ("title", VStr ""); ("url_title", VStr ""); ("text", VStr "");
          ("author_id", VNone); ("moderator_id", VNone); ("date", VDate 2016 1 1)] |}.

Definition alice : User := {| user_pk := 1; is_authenticated := true; is_superuser := false |}.
Definition bob : User := {| user_pk := 2; is_authenticated := true; is_superuser := false |}.

Definition demo_env : Env :=
  {| has_perm :=
       backend_has_perm
         [(1, "information_pages.add_informationdocument")]
         [(1, "change_document", 10); (1, "view_minutesdocument", 10);
          (1, "minutes.view_minutesdocument", 10);
          (1, "minutes.change_minutesdocument", 11);
          (2, "view_minutesdocument", 10)];
     get_objects_for_user := fun _ _ _ _ => [];
     redirect_to_login := fun _ => HttpResponseRedirect "/login";
     can_be_changed_by := fun document u => (user_pk u =? 1) && negb (document =? 20);
     VIEW_PERMISSION_NAME := fun _ => "view_minutesdocument";
     MinutesDocument_class := minutes_class;
     MinutesDocument_VIEW_PERMISSION_NAME := "view_minutesdocument";
     MinutesDocument_get_view_permission := "minutes.view_minutesdocument";
     InformationDocument_VIEW_PERMISSION_NAME := "view_informationdocument";
     InformationDocument_ctype := 8;
     Poll_VIEW_PERMISSION_NAME := "view_poll";
     Poll_ctype := 9;
     content_type_model_class := fun c => if c =? 7 then Some minutes_class else None;
     revision_revert := fun _ st => (true, st);
     handle_attachment := fun _ _ st => ((false, "attachment form", None), st);
     handle_edit := fun _ _ _ st => ((false, "edit form"), st);
     permission_warning := fun _ _ => None;
     delete_old_empty_pages := fun st => st;
     SUPPORTED_IMAGE_TYPES := ["jpg"; "jpeg"; "png"; "gif"];
     MEDIA_ROOT := "/media";
     sendfile := fun _ filename as_attachment name =>
       Ok (FileResponse filename as_attachment name);
     json_loads := fun s =>
       if String.eqb s "true" then Some (VBool true)
       else if String.eqb s "false" then Some (VBool false) else None;
     markdown_convert := fun s => (s, "");
     slugify := fun s => s;
     ugettext := fun s => s;
     reverse := fun name args => name +:+ ":" +:+ String.concat "/" args |}.

Definition demo_row : gmap string Value :=
  list_to_map
    [("id", VInt 10); ("polymorphic_ctype_id", VInt 7); ("title", VStr "Minutes");
     ("url_title", VStr "minutes"); ("text", VStr "new text"); ("author_id", VInt 2);
     ("moderator_id", VInt 2); ("date", VDate 2016 3 4)].

Definition demo_snapshot : gmap string Value :=
  list_to_map
    [("id", VInt 10); ("polymorphic_ctype", VInt 7); ("document_ptr", VInt 10);
     ("title", VStr "Minutes"); ("url_title", VStr "minutes"); ("text", VStr "old text");
     ("author", VInt 1); ("moderator", VInt 2); ("date", VDate 2016 3 4);
     ("participants", VPks [1; 2])].

Definition demo_version : Version :=
  {| version_pk := 5; version_object_id := 10; field_dict := demo_snapshot;
     revision_comment := "first draft" |}.

Definition demo_attachments : gmap Z Attachment :=
  list_to_map
    [(1, {| att_document := 10; att_displayname := "photo.PNG"; att_index := 2;
            att_no_direct_download := false; att_file := "a/photo.png" |});
     (2, {| att_document := 10; att_displayname := "notes.txt"; att_index := 1;
            att_no_direct_download := false; att_file := "a/notes.txt" |});
     (3, {| att_document := 20; att_displayname := "other.gif"; att_index := 0;
            att_no_direct_download := false; att_file := "b/other.gif" |});
     (4, {| att_document := 10; att_displayname := "scan.jpg"; att_index := 0;
            att_no_direct_download := false; att_file := "a/scan.jpg" |})].

Definition demo_store : Store :=
  {| documents := {[ 10 := demo_row ]};
     relations := {[ (10, "participants") := {[ 3 ]} ]};
     attachments := demo_attachments;
     versions := [demo_version];
     revisions := [];
     files := ∅;
     messages := [] |}.

Definition ajax_post (u : User) (data : QueryDict) : Request :=
  {| method := "POST"; is_ajax := true; query := []; form := data; user := u |}.

Definition plain_get (u : User) (q : QueryDict) : Request :=
  {| method := "GET"; is_ajax := false; query := q; form := []; user := u |}.


(** ** Vocabulary of the properties *)

(** The column a snapshot entry is moved to by the loop of [revert], when
    the class has a plain field descriptor under the entry's key. *)
Definition attname_of (document_class : ModelClass) (item : string * Value)
    : option string :=
  if str_contains "_ptr" (fst item) then None
  else
    match cls_attr document_class (fst item) with
    | Some (AttrField attname) => Some attname
    | _ => None
    end.

(** A snapshot (without its content-type entry) fits a class when the
    columns its relation entries are moved to are pairwise different, none
    of them is itself a key of the snapshot or the content-type column, the
    content-type column is no key of the snapshot, and the class has no
    descriptor named [id]. *)
Definition snapshot_fits (document_class : ModelClass) (fields : gmap string Value)
    : bool :=
  let attnames := omap (attname_of document_class) (map_to_list fields) in
  bool_decide (NoDup attnames)
  && forallb (fun a => match fields !! a with
                       | None => negb (String.eqb a "polymorphic_ctype_id")
                       | Some _ => false
                       end) attnames
  && match fields !! "polymorphic_ctype_id" with None => true | Some _ => false end
  && match cls_attr document_class "id" with None => true | Some _ => false end.

(** What the loop has done with one entry of the snapshot. *)
Definition entry_split (document_class : ModelClass)
    (before new_fields many_to_many_fields : gmap string Value)
    (key : string) (value : Value) : Prop :=
  if str_contains "_ptr" key then new_fields !! key = None
  else
    match cls_attr document_class key with
    | None => new_fields !! key = before !! key
    | Some (AttrField attname) =>
        new_fields !! attname = Some value ∧ new_fields !! key = None
    | Some AttrManyToMany =>
        many_to_many_fields !! key = Some value ∧ new_fields !! key = None
    | Some AttrOther => False
    end.

(** What [download_attachment] hands to the file responder. *)
Definition served_file {E : Env} (request : Request) (a : Attachment) : Result Response :=
  sendfile request (os_path_join MEDIA_ROOT (att_file a))
    (negb (match qd_get (GET request) "embed" with
           | Some v => negb (String.eqb v EmptyString)
           | None => false
           end))
    (att_displayname a).

(** An entry of the reorder map as the loop reads it: the attachment key
    and the new index, both converted. *)
Definition parse_entry (item : string * string) : option (Z * Z) :=
  match py_int (fst item), py_int (snd item) with
  | Some n, Some i => Some (n, i)
  | _, _ => None
  end.

Definition set_index (i : Z) (a : Attachment) : Attachment :=
  {| att_document := att_document a; att_displayname := att_displayname a;
     att_index := i; att_no_direct_download := att_no_direct_download a;
     att_file := att_file a |}.

(** The write of one entry. *)
Definition reindex (m : gmap Z Attachment) (e : Z * Z) : gmap Z Attachment :=
  match m !! fst e with
  | Some a => <[fst e := set_index (snd e) a]> m
  | None => m
  end.

(** The entry names an existing attachment of a document the requester may
    change, and carries an integer index. *)
Definition entry_permitted {E : Env} (request : Request) (st : Store)
    (item : string * string) : bool :=
  match parse_entry item with
  | Some (n, _) =>
      match attachments st !! n with
      | Some a => can_be_changed_by (att_document a) (user request)
      | None => false
      end
  | None => false
  end.

(** The entry names an existing attachment of a document the requester may
    not change. *)
Definition entry_denied {E : Env} (request : Request) (st : Store)
    (item : string * string) : bool :=
  match py_int (fst item) with
  | Some n =>
      match attachments st !! n with
      | Some a => negb (can_be_changed_by (att_document a) (user request))
      | None => false
      end
  | None => false
  end.

Definition set_no_direct_download (flag : bool) (a : Attachment) : Attachment :=
  {| att_document := att_document a; att_displayname := att_displayname a;
     att_index := att_index a; att_no_direct_download := flag;
     att_file := att_file a |}.

(** The class lets the database assign the primary key. *)
Definition auto_pk (document_class : ModelClass) : bool :=
  match cls_defaults document_class !! "id" with
  | Some VNone | None => true
  | Some _ => false
  end.

(** The row [create] stores for a new document. *)
Definition created_row {E : Env} (u : User) (url_title title : string) (pk : Z)
    : gmap string Value :=
  <["id" := VInt pk]>
    (<["polymorphic_ctype_id" := VInt (cls_ctype MinutesDocument_class)]>
       (minutes_kwargs u url_title title u ∪ cls_defaults MinutesDocument_class)).

(** The minutes documents [list] files under a year: those for which its
    permission call answers true and whose date falls in that year. *)
Definition listed_in_year {E : Env} (u : User) (year : Z)
    (minutes : list (Z * gmap string Value)) : list Z :=
  fst <$> List.filter
    (fun kv =>
       has_perm u (ArgDoc (fst kv)) (Some (ArgPerm MinutesDocument_get_view_permission))
       && match row_date (snd kv) with
          | Some (y, _, _) => y =? year
          | None => false
          end)
    minutes.

(** ** Further vocabulary *)

(** A superuser, and a store with three minutes documents in two years. *)
Definition root : User := {| user_pk := 9; is_authenticated := true; is_superuser := true |}.

Definition minutes_row (pk : Z) (url_title : string) (y m d : Z) : gmap string Value :=
  list_to_map
    [("id", VInt pk); ("polymorphic_ctype_id", VInt 7); ("title", VStr url_title);
     ("url_title", VStr url_title); ("text", VStr ""); ("author_id", VInt 1);
     ("moderator_id", VInt 1); ("date", VDate y m d)].

Definition demo_store_minutes : Store :=
  {| documents := list_to_map [(10, minutes_row 10 "spring" 2016 3 4);
                               (12, minutes_row 12 "summer" 2016 5 1);
                               (13, minutes_row 13 "winter" 2015 12 31)];
     relations := ∅; attachments := demo_attachments; versions := [];
     revisions := []; files := ∅; messages := [] |}.

(** The index carried by the last entry that names attachment [n]. *)
Fixpoint final_index (entries : list (Z * Z)) (n : Z) : option Z :=
  match entries with
  | [] => None
  | e :: rest =>
      match final_index rest n with
      | Some i => Some i
      | None => if fst e =? n then Some (snd e) else None
      end
  end.

(** The entry's key is an integer that names no attachment. *)
Definition entry_missing (st : Store) (item : string * string) : bool :=
  match py_int (fst item) with
  | Some n => match attachments st !! n with None => true | Some _ => false end
  | None => false
  end.

(** The entry names an attachment the requester may change, but its index
    is no integer. *)
Definition entry_bad_index {E : Env} (request : Request) (st : Store)
    (item : string * string) : bool :=
  match py_int (fst item), py_int (snd item) with
  | Some n, None =>
      match attachments st !! n with
      | Some a => can_be_changed_by (att_document a) (user request)
      | None => false
      end
  | _, _ => false
  end.

(** The tables [revert] itself never writes are in [st'] as in [st]. *)
Definition untouched_tables (st st' : Store) : Prop :=
  attachments st' = attachments st ∧ versions st' = versions st ∧
  files st' = files st ∧ messages st' = messages st.

(** Two versions with the same key, the first one's snapshot marked. *)
Definition twin_versions : list Version :=
  [ {| version_pk := 4; version_object_id := 10; field_dict := ∅;
       revision_comment := "other" |};
    {| version_pk := 5; version_object_id := 10; field_dict := demo_snapshot;
       revision_comment := "first" |};
    {| version_pk := 5; version_object_id := 10; field_dict := ∅;
       revision_comment := "second" |} ].

(** Row [a] stands at or before row [b] under [order_by('-date')], both
    dated. *)
Definition not_older (a b : Z * gmap string Value) : Prop :=
  ∃ da db, row_date (snd a) = Some da ∧ row_date (snd b) = Some db
           ∧ date_leb db da = true.

(** * Properties *)

(** ** Python strings *)

Example lower_PNG : lower "photo.PNG" = "photo.png".
Proof. reflexivity. Qed.

Example split_two_dots : split "."%char "a.b.c" = ["a"; "b"; "c"].
Proof. reflexivity. Qed.

Example split_no_dot : split "."%char "png" = ["png"].
Proof. reflexivity. Qed.

Example py_int_padded : py_int " 42 " = Some 42.
Proof. reflexivity. Qed.

Example py_int_negative : py_int "-7" = Some (-7).
Proof. reflexivity. Qed.

Example py_int_letters : py_int "abc" = None.
Proof. reflexivity. Qed.

Example py_int_empty : py_int "" = None.
Proof. reflexivity. Qed.

Example contains_ptr : str_contains "_ptr" "document_ptr" = true.
Proof. reflexivity. Qed.

(** ** Running a handler *)

Lemma bind_ok {A B} (m : M A) (k : A → M B) st a st' :
  m st = (Ok a, st') → bind m k st = k a st'.
Proof. intros H. unfold bind. by rewrite H. Qed.

Lemma bind_raise {A B} (m : M A) (k : A → M B) st e st' :
  m st = (Raise e, st') → bind m k st = (Raise e, st').
Proof. intros H. unfold bind. by rewrite H. Qed.

Lemma qd_get_truthy d k v : qd_get d k = Some v → qd_truthy d = true.
Proof. destruct d; [discriminate | done]. Qed.

Lemma qd_getitem_ok d k v st : qd_get d k = Some v → qd_getitem d k st = (Ok v, st).
Proof. intros H. unfold qd_getitem. by rewrite H. Qed.

Lemma to_int_ok s n st : py_int s = Some n → to_int s st = (Ok n, st).
Proof. intros H. unfold to_int. by rewrite H. Qed.

Lemma POST_not_post request : method request ≠ "POST" → POST request = [].
Proof.
  intros H. unfold POST. destruct (String.eqb_spec (method request) "POST"); done.
Qed.

Ltac run_step :=
  first
    [ erewrite (bind_ok (qd_getitem _ _)) by (apply qd_getitem_ok; eassumption)
    | erewrite (bind_ok (to_int _)) by (apply to_int_ok; eassumption)
    | erewrite (bind_ok (get_object_or_error _ _ _ _)) by eassumption
    | erewrite (bind_ok get_store) by reflexivity ].

Ltac run := repeat run_step.

(** ** The scan for the version *)




Lemma find_version_some versions version_id V :
  find_version versions version_id = Ok (Some V) →
  In V versions ∧ py_int version_id = Some (version_pk V).
Proof.
  induction versions as [|v vs IH]; simpl; [discriminate|].
  destruct (py_int version_id) as [n|]; [|discriminate].
  destruct (Z.eqb_spec (version_pk v) n) as [Heq|_].
  - intros [= <-]. split; [by left | by rewrite Heq].
  - intros H. destruct (IH H). split; [by right | done].
Qed.

(** With distinct version keys, the scan finds the stored version whose
    key the id names. *)
Lemma find_version_stored versions version_id V :
  NoDup (version_pk <$> versions) →
  In V versions →
  py_int version_id = Some (version_pk V) →
  find_version versions version_id = Ok (Some V).
Proof.
  intros Hnd Hin Hint. induction versions as [|v vs IH]; [done|].
  rewrite fmap_cons in Hnd. apply NoDup_cons in Hnd as [Hfresh Hnd].
  simpl. rewrite Hint. destruct Hin as [->|Hin]; [by rewrite Z.eqb_refl|].
  destruct (Z.eqb_spec (version_pk v) (version_pk V)) as [Heq|_]; [|by apply IH].
  exfalso. apply Hfresh. rewrite Heq. apply list_elem_of_fmap. exists V.
  split; [done | by apply list_elem_of_In].
Qed.

(** The part of [revert] up to the scan, on a request that passes the
    gate. *)
Lemma revert_after_scan {E : Env} request st version_id url_title document :
  is_ajax request = true →
  qd_get (POST request) "id" = Some version_id →
  qd_get (POST request) "url_title" = Some url_title →
  get_object_or_error Document (user request) ["change_document"] url_title st
    = (Ok document, st) →
  revert request st =
    match find_version (get_for_object document st) version_id with
    | Raise e => (Raise e, st)
    | Ok None => (Ok (HttpResponseBadRequest (BodyText "Could not find document")), st)
    | Ok (Some revert_version) =>
        let '(ok, st1) := revision_revert revert_version st in
        if negb ok
        then (Ok (HttpResponseServerError (BodyText "Could not revert the version")), st1)
        else
          match field_dict revert_version !! "polymorphic_ctype" with
          | None => (Raise KeyError, st1)
          | Some ctype =>
              let fields := delete "polymorphic_ctype" (field_dict revert_version) in
              bind (get_model_class ctype) (fun document_class =>
                bind (lift (revert_fields document_class (map_to_list fields) (fields, ∅)))
                  (fun split_fields =>
                     bind (construct document_class (fst split_fields))
                       (fun reverted_document =>
                          bind (atomic
                                  (bind (save document_class reverted_document)
                                     (fun pk =>
                                        bind (restore_many_to_many pk (snd split_fields))
                                          (fun _ =>
                                             modify (add_revision
                                               {| rev_user := user_pk (user request);
                                                  rev_comment := revert_comment revert_version |})))))
                            (fun _ => ret (HttpResponse BodyEmpty))))) st1
          end
    end.
Proof.
  intros Hajax Hid Hurl Hdoc. unfold revert.
  rewrite Hajax, (qd_get_truthy _ _ _ Hid). simpl. run.
  unfold bind at 1. unfold lift at 1.
  destruct (find_version _ _) as [[V|]|e]; try reflexivity.
  unfold bind at 1. destruct (revision_revert V st) as [ok st1].
  destruct ok; simpl; [|reflexivity].
  destruct (field_dict V !! "polymorphic_ctype"); [|reflexivity].
  unfold bind. destruct (get_model_class v st1) as [[cls|] ?]; [|reflexivity].
  destruct (lift _ _) as [[[nf mm]|] ?]; reflexivity.
Qed.







(** ** Download *)

Lemma get_attachment_or_404_ok pk n a st :
  py_int pk = Some n → attachments st !! n = Some a →
  get_attachment_or_404 pk st = (Ok (n, a), st).
Proof.
  intros Hpk Ha. unfold get_attachment_or_404.
  erewrite bind_ok by (by apply to_int_ok). by rewrite Ha.
Qed.

Lemma Attachment_objects_get_ok pk n a st :
  py_int pk = Some n → attachments st !! n = Some a →
  Attachment_objects_get pk st = (Ok (n, a), st).
Proof.
  intros Hpk Ha. unfold Attachment_objects_get.
  erewrite bind_ok by (by apply to_int_ok). by rewrite Ha.
Qed.



(** ** Request shapes *)

(** C5 (as amended): a request that is not flagged asynchronous is NotFound
    for revert, attachment creation, deletion, reordering, image listing
    and flag toggling; a request whose method is not POST is NotFound for
    revert, attachment creation, deletion and flag toggling; a request to
    the download endpoint whose method is not GET is answered with
    BadRequest. *)
Theorem disallowed_request_shapes {E : Env} request st :
  (is_ajax request = false →
     revert request st = (Raise Http404, st) ∧
     create_attachment request st = (Raise Http404, st) ∧
     delete_attachment request st = (Raise Http404, st) ∧
     update_attachment_order request st = (Raise Http404, st) ∧
     (∀ document_id, get_attachments request document_id st = (Raise Http404, st)) ∧
     change_attachment_no_direct_download request st = (Raise Http404, st)) ∧
  (method request ≠ "POST" →
     revert request st = (Raise Http404, st) ∧
     create_attachment request st = (Raise Http404, st) ∧
     delete_attachment request st = (Raise Http404, st) ∧
     change_attachment_no_direct_download request st = (Raise Http404, st)) ∧
  (method request ≠ "GET" →
     download_attachment request st = (Ok (HttpResponseBadRequest BodyEmpty), st)).
Proof.
  split; [|split].
  - intros Hajax.
    unfold revert, create_attachment, delete_attachment, update_attachment_order,
      get_attachments, change_attachment_no_direct_download.
    rewrite Hajax. simpl. rewrite orb_true_r. done.
  - intros Hm. pose proof (POST_not_post _ Hm) as HP.
    unfold revert, create_attachment, delete_attachment,
      change_attachment_no_direct_download.
    rewrite HP. simpl. rewrite orb_true_r.
    destruct (String.eqb_spec (method request) "POST") as [|_]; [done|].
    simpl. rewrite orb_true_r, andb_false_r. done.
  - intros Hm. unfold download_attachment.
    destruct (String.eqb_spec (method request) "GET") as [|_]; done.
Qed.

Lemma disallowed_request_shapes_witness :
  @revert demo_env (plain_get alice []) demo_store = (Raise Http404, demo_store) ∧
  @download_attachment demo_env (ajax_post alice [("attachment_id", "1")]) demo_store
    = (Ok (HttpResponseBadRequest BodyEmpty), demo_store).
Proof.
  split.
  - destruct (@disallowed_request_shapes demo_env (plain_get alice []) demo_store)
      as (H & _ & _).
    exact (proj1 (H eq_refl)).
  - destruct (@disallowed_request_shapes demo_env
                (ajax_post alice [("attachment_id", "1")]) demo_store)
      as (_ & _ & H).
    apply H. discriminate.
Defined.

(** C5, as first stated, fails at the download endpoint: a POST is answered
    with BadRequest; nothing is raised, so it is not NotFound. *)
Lemma download_post_is_bad_request :
  method (ajax_post alice [("attachment_id", "1")]) ≠ "GET" ∧
  @download_attachment demo_env (ajax_post alice [("attachment_id", "1")]) demo_store
    = (Ok (HttpResponseBadRequest BodyEmpty), demo_store) ∧
  fst (@download_attachment demo_env (ajax_post alice [("attachment_id", "1")]) demo_store)
    ≠ Raise Http404.
Proof. repeat split; discriminate. Qed.

(** An asynchronous GET to the reorder endpoint: [request.POST] is empty,
    the loop has nothing to do and the handler answers with success. *)
Example update_attachment_order_get :
  @update_attachment_order demo_env
    {| method := "GET"; is_ajax := true; query := []; form := []; user := alice |}
    demo_store
  = (Ok (HttpResponse BodyEmpty), demo_store).
Proof. reflexivity. Qed.

(** ** Image listing *)

Lemma lower_app s1 s2 : lower (s1 +:+ s2) = lower s1 +:+ lower s2.
Proof. induction s1 as [|c s1 IH]; simpl; [done | by rewrite IH]. Qed.

Lemma split_nonempty sep s : split sep s ≠ [].
Proof.
  destruct s as [|c s]; simpl; [done|].
  destruct (Ascii.eqb c sep); [done|]. by destruct (split sep s).
Qed.

Lemma str_contains_dot_cons c s :
  str_contains "." (String c s) = Ascii.eqb "." c || str_contains "." s.
Proof. cbn [str_contains starts_with]. by rewrite andb_true_r. Qed.

Lemma split_no_sep s : str_contains "." s = false → split "."%char s = [s].
Proof.
  induction s as [|c s IH]; [done|].
  rewrite str_contains_dot_cons. cbn [split].
  rewrite (Ascii.eqb_sym c "."%char).
  destruct (Ascii.eqb "." c); [done|].
  cbn [orb]. intros Hs. by rewrite (IH Hs).
Qed.

Lemma last_cons_nonempty (w : string) ws : ws ≠ [] →
  List.last (w :: ws) EmptyString = List.last ws EmptyString.
Proof. by destruct ws. Qed.

Lemma split_app_dot s1 s2 :
  ∃ w ws, split "."%char (s1 +:+ "." +:+ s2) = w :: ws ∧ ws ≠ [] ∧
          List.last ws EmptyString = List.last (split "."%char s2) EmptyString.
Proof.
  induction s1 as [|c s1 IH].
  - change ("" +:+ "." +:+ s2) with (String "."%char s2). cbn [split].
    change (Ascii.eqb "." ".") with true. cbn iota.
    exists EmptyString, (split "."%char s2). split; [done|].
    split; [apply split_nonempty | done].
  - change (String c s1 +:+ "." +:+ s2) with (String c (s1 +:+ "." +:+ s2)).
    cbn [split]. destruct IH as (w & ws & -> & Hne & Hlast).
    destruct (Ascii.eqb c "."%char).
    + exists EmptyString, (w :: ws). split; [done|]. split; [done|].
      by rewrite last_cons_nonempty.
    + by exists (String c w), ws.
Qed.

Lemma last_item_split_app s1 s2 :
  last_item (split "."%char (s1 +:+ "." +:+ s2)) = last_item (split "."%char s2).
Proof.
  unfold last_item. destruct (split_app_dot s1 s2) as (w & ws & -> & Hne & <-).
  by apply last_cons_nonempty.
Qed.

Lemma lower_ascii_not_dot c : c ≠ "."%char → lower_ascii c ≠ "."%char.
Proof.
  intros Hc. unfold lower_ascii.
  destruct (Nat.leb 65 (nat_of_ascii c) && Nat.leb (nat_of_ascii c) 90)%bool eqn:Hup;
    [|done].
  apply andb_true_iff in Hup as [H1 H2].
  apply Nat.leb_le in H1. apply Nat.leb_le in H2.
  intros Heq. apply (f_equal nat_of_ascii) in Heq.
  change (nat_of_ascii ".") with 46%nat in Heq.
  rewrite nat_ascii_embedding in Heq; lia.
Qed.

Lemma lower_no_dot s : str_contains "." s = false → str_contains "." (lower s) = false.
Proof.
  induction s as [|c s IH]; [done|]. cbn [lower].
  rewrite !str_contains_dot_cons.
  destruct (Ascii.eqb_spec "." c) as [<-|Hne]; [done|]. cbn [orb]. intros Hs.
  destruct (Ascii.eqb_spec "." (lower_ascii c)) as [Heq|_].
  - exfalso. by apply (lower_ascii_not_dot c).
  - cbn [orb]. by apply IH.
Qed.

Lemma file_type_extension base ext :
  str_contains "." ext = false → file_type (base +:+ "." +:+ ext) = lower ext.
Proof.
  intros Hext. unfold file_type. rewrite !lower_app.
  change (lower ".") with ".". rewrite last_item_split_app.
  by rewrite (split_no_sep _ (lower_no_dot _ Hext)).
Qed.

Lemma is_supported_image_In {E : Env} name :
  is_supported_image name = true ↔ In (file_type name) SUPPORTED_IMAGE_TYPES.
Proof.
  unfold is_supported_image. rewrite existsb_exists. split.
  - intros (t & Hin & Heq). apply String.eqb_eq in Heq. by subst.
  - intros Hin. exists (file_type name). split; [done | apply String.eqb_refl].
Qed.

Lemma image_data_lookup {E : Env} atts data pk name :
  NoDup (fst <$> atts) →
  image_data atts data !! pk = Some name ↔
    (∃ a, In (pk, a) atts ∧ is_supported_image (att_displayname a) = true
          ∧ att_displayname a = name)
    ∨ ((∀ a, In (pk, a) atts → is_supported_image (att_displayname a) = false)
       ∧ data !! pk = Some name).
Proof.
  revert data. induction atts as [|[k b] atts IH]; intros data Hnd.
  - simpl. split; [intros H; right; by split | intros [(a & [] & _)|[_ H]]; done].
  - rewrite fmap_cons in Hnd. apply NoDup_cons in Hnd as [Hk Hnd]. simpl.
    assert (Hfresh : ∀ x, In (k, x) atts → False).
    { intros x Hx. apply Hk. apply list_elem_of_fmap. exists (k, x).
      split; [done | by apply list_elem_of_In]. }
    destruct (is_supported_image (att_displayname b)) eqn:Hb; simpl; rewrite (IH _ Hnd).
    + split.
      * intros [(a & Ha & Hs & Hn)|[Hno Hd]]; [left; exists a; auto|].
        destruct (decide (k = pk)) as [->|Hne].
        -- rewrite lookup_insert_eq in Hd. injection Hd as <-.
           left. exists b. auto.
        -- rewrite lookup_insert_ne in Hd by done. right. split; [|done].
           intros x [Hx|Hx]; [by simplify_eq | by apply Hno].
      * intros [(a & [Ha|Ha] & Hs & Hn)|[Hno Hd]].
        -- simplify_eq. right. split; [|by rewrite lookup_insert_eq].
           intros x Hx. by destruct (Hfresh x).
        -- left. exists a. auto.
        -- destruct (decide (k = pk)) as [->|Hne].
           { pose proof (Hno b (or_introl eq_refl)). congruence. }
           right. split; [intros x Hx; apply Hno; by right|].
           by rewrite lookup_insert_ne.
    + split.
      * intros [(a & Ha & Hs & Hn)|[Hno Hd]]; [left; exists a; auto|].
        right. split; [|done]. intros x [Hx|Hx]; [by simplify_eq | by apply Hno].
      * intros [(a & [Ha|Ha] & Hs & Hn)|[Hno Hd]].
        -- simplify_eq. congruence.
        -- left. exists a. auto.
        -- right. split; [intros x Hx; apply Hno; by right | done].
Qed.

Lemma document_attachments_In document st pk a :
  In (pk, a) (document_attachments document st) ↔
  attachments st !! pk = Some a ∧ att_document a = document.
Proof.
  unfold document_attachments. rewrite filter_In. simpl.
  rewrite <- list_elem_of_In, elem_of_map_to_list, Z.eqb_eq. done.
Qed.

Lemma NoDup_fst_filter {A} (f : Z * A → bool) (l : list (Z * A)) :
  NoDup (fst <$> l) → NoDup (fst <$> List.filter f l).
Proof.
  induction l as [|x l IH]; simpl; [done|].
  intros [Hx Hl]%NoDup_cons. destruct (f x); simpl; [|by apply IH].
  apply NoDup_cons. split; [|by apply IH].
  intros Hin. apply Hx. apply list_elem_of_fmap in Hin as (y & -> & Hy).
  apply list_elem_of_fmap. exists y. split; [done|].
  apply list_elem_of_In. apply list_elem_of_In in Hy. by apply filter_In in Hy as [? _].
Qed.

Lemma document_attachments_NoDup document st :
  NoDup (fst <$> document_attachments document st).
Proof. apply NoDup_fst_filter. apply NoDup_fst_map_to_list. Qed.

(** C6: the image listing maps an attachment id to a display name exactly
    for the attachments of the document whose lower-cased last dot segment
    is in the allow-list; for a name [base.ext] that segment is [ext] in
    lower case; [photo.PNG] passes when [png] is allowed and [notes.txt]
    does not pass when [txt] is not. *)
Theorem get_attachments_lists_images {E : Env} request document_id st :
  is_ajax request = true →
  is_Some (documents st !! document_id) →
  can_be_changed_by document_id (user request) = true →
  (∃ data,
     get_attachments request document_id st = (Ok (HttpResponse (BodyJson data)), st) ∧
     ∀ pk name,
       data !! pk = Some name ↔
       ∃ a, attachments st !! pk = Some a ∧ att_document a = document_id ∧
            att_displayname a = name ∧
            In (file_type name) SUPPORTED_IMAGE_TYPES) ∧
  (∀ base ext, str_contains "." ext = false →
     file_type (base +:+ "." +:+ ext) = lower ext) ∧
  (In "png" SUPPORTED_IMAGE_TYPES → is_supported_image "photo.PNG" = true) ∧
  (¬ In "txt" SUPPORTED_IMAGE_TYPES → is_supported_image "notes.txt" = false).
Proof.
  intros Hajax [row Hrow] Hperm. split; [|split; [|split]].
  - eexists. split.
    + unfold get_attachments. rewrite Hajax. simpl.
      unfold bind at 1. unfold Document_objects_get. rewrite Hrow, Hperm. simpl.
      reflexivity.
    + intros pk name.
      rewrite (image_data_lookup _ _ _ _ (document_attachments_NoDup _ _)).
      rewrite lookup_empty. split.
      * intros [(a & Ha & Hs & Hn)|[_ ?]]; [|done].
        apply document_attachments_In in Ha as [Ha Hd].
        exists a. repeat split; try done. rewrite <- Hn. by apply is_supported_image_In.
      * intros (a & Ha & Hd & Hn & Hin). left. exists a.
        split; [by apply document_attachments_In|].
        split; [|done]. apply is_supported_image_In. by rewrite Hn.
  - apply file_type_extension.
  - intros Hin. by apply is_supported_image_In.
  - intros Hno. destruct (is_supported_image "notes.txt") eqn:Hs; [|done].
    exfalso. apply Hno. by apply is_supported_image_In in Hs.
Qed.

Lemma get_attachments_lists_images_witness :
  ∃ data,
    @get_attachments demo_env (ajax_post alice []) 10 demo_store
      = (Ok (HttpResponse (BodyJson data)), demo_store) ∧
    data !! 1 = Some "photo.PNG" ∧ data !! 2 = None.
Proof.
  destruct (@get_attachments_lists_images demo_env (ajax_post alice []) 10 demo_store)
    as ((data & Hrun & Hdata) & _); [reflexivity | by eexists | reflexivity |].
  exists data. split; [exact Hrun|]. split.
  - apply Hdata. eexists. repeat split; [reflexivity..|]. vm_compute. tauto.
  - destruct (data !! 2) as [name|] eqn:H2; [|reflexivity].
    exfalso. apply Hdata in H2 as (a & Ha & _ & Hn & Hin).
    vm_compute in Ha. injection Ha as <-. simpl in Hn. subst name.
    vm_compute in Hin. intuition discriminate.
Defined.

(** ** Reordering *)

Lemma set_attachments_id st : set_attachments (fun _ => attachments st) st = st.
Proof. by destruct st. Qed.

Lemma set_attachments_twice f g st :
  set_attachments f (set_attachments g st) = set_attachments (fun m => f (g m)) st.
Proof. done. Qed.




Lemma update_one_permitted {E : Env} request st item :
  entry_permitted request st item = true →
  ∃ e, parse_entry item = Some e ∧
       update_one request item st
         = (Ok (Some tt), set_attachments (fun m => reindex m e) st).
Proof.
  unfold entry_permitted, parse_entry. destruct item as [pk index]. simpl.
  destruct (py_int pk) as [n|] eqn:Hpk; [|done].
  destruct (py_int index) as [i|] eqn:Hi; [|done].
  destruct (attachments st !! n) as [a|] eqn:Ha; [|done]. intros Hperm.
  exists (n, i). split; [done|]. unfold update_one.
  erewrite bind_ok by (by apply get_attachment_or_404_ok).
  cbv beta iota zeta. rewrite Hperm. simpl. erewrite bind_ok by (by apply to_int_ok).
  unfold bind, save_attachment, modify, ret, reindex, set_attachments. simpl.
  by rewrite Ha.
Qed.

Lemma update_one_denied {E : Env} request st item :
  entry_denied request st item = true →
  update_one request item st = (Ok None, st).
Proof.
  unfold entry_denied. destruct item as [pk index]. simpl.
  destruct (py_int pk) as [n|] eqn:Hpk; [|done].
  destruct (attachments st !! n) as [a|] eqn:Ha; [|done]. intros Hperm.
  unfold update_one. erewrite bind_ok by (by apply get_attachment_or_404_ok).
  cbv beta iota zeta. by rewrite Hperm.
Qed.







(** ** Sorting *)

Lemma insert_sorted_perm {A} (leb : A → A → bool) x l :
  insert_sorted leb x l ≡ₚ x :: l.
Proof.
  induction l as [|y l IH]; simpl; [done|].
  destruct (leb x y); [done|]. rewrite IH. apply Permutation_swap.
Qed.

Lemma sort_by_perm {A} (leb : A → A → bool) l : sort_by leb l ≡ₚ l.
Proof.
  unfold sort_by. induction l as [|x l IH]; simpl; [done|].
  by rewrite insert_sorted_perm, IH.
Qed.

Section sorted.
Context {A : Type} (leb : A → A → bool).
Hypothesis leb_total : ∀ a b, leb a b = false → leb b a = true.
Hypothesis leb_trans : ∀ a b c, leb a b = true → leb b c = true → leb a c = true.

Lemma insert_sorted_sorted x l :
  StronglySorted (fun a b => leb a b = true) l →
  StronglySorted (fun a b => leb a b = true) (insert_sorted leb x l).
Proof.
  induction 1 as [|y l Hl IH Hy]; simpl.
  - repeat constructor.
  - destruct (leb x y) eqn:Hxy.
    + constructor; [by constructor|]. constructor; [done|].
      eapply Forall_impl; [exact Hy|]. intros z Hz. by eapply leb_trans.
    + constructor; [done|].
      rewrite insert_sorted_perm. constructor; [by apply leb_total | done].
Qed.

Lemma sort_by_sorted l : StronglySorted (fun a b => leb a b = true) (sort_by leb l).
Proof.
  unfold sort_by. induction l as [|x l IH]; simpl; [constructor|].
  by apply insert_sorted_sorted.
Qed.
End sorted.

Lemma StronglySorted_weaken {A} (R R' : A → A → Prop) l :
  (∀ x y, R x y → R' x y) → StronglySorted R l → StronglySorted R' l.
Proof.
  intros HR. induction 1 as [|x l Hl IH Hx]; constructor; [done|].
  eapply Forall_impl; [exact Hx | auto].
Qed.

(** ** The direct-download flag *)

Lemma documents_by_url_title_documents {E : Env} klass title st st' :
  documents st' = documents st →
  documents_by_url_title klass title st' = documents_by_url_title klass title st.
Proof. intros H. unfold documents_by_url_title. by rewrite H. Qed.

Lemma get_object_or_error_documents {E : Env} klass u perms title st st' d :
  documents st' = documents st →
  get_object_or_error klass u perms title st = (Ok d, st) →
  get_object_or_error klass u perms title st' = (Ok d, st').
Proof.
  intros Hdocs. unfold get_object_or_error.
  rewrite (documents_by_url_title_documents _ _ _ _ Hdocs).
  destruct (documents_by_url_title klass title st) as [|pk [|? ?]]; try discriminate.
  destruct (forallb _ perms); [|discriminate]. by intros [= ->].
Qed.

Lemma document_str_ok document key st row s :
  documents st !! document = Some row → row !! key = Some (VStr s) →
  document_str document key st = (Ok s, st).
Proof.
  intros Hrow Hkey. unfold document_str. erewrite bind_ok by reflexivity.
  by rewrite Hrow, Hkey.
Qed.

Lemma direct_download_attachments_elem document st k b :
  (k, b) ∈ direct_download_attachments document st ↔
  attachments st !! k = Some b ∧ att_document b = document
  ∧ att_no_direct_download b = false.
Proof.
  unfold direct_download_attachments. rewrite sort_by_perm.
  rewrite list_elem_of_In, filter_In, document_attachments_In. simpl.
  rewrite negb_true_iff. tauto.
Qed.

Lemma direct_download_attachments_sorted document st :
  StronglySorted (fun x y => att_index (snd x) ≤ att_index (snd y))
    (direct_download_attachments document st).
Proof.
  unfold direct_download_attachments.
  eapply StronglySorted_weaken; [|apply sort_by_sorted].
  - intros x y Hxy. by apply Z.leb_le.
  - intros x y Hxy. apply Z.leb_gt in Hxy. apply Z.leb_le. lia.
  - intros x y z Hxy Hyz. apply Z.leb_le in Hxy, Hyz. apply Z.leb_le. lia.
Qed.

(** C7: once the flag-toggle endpoint has set [no_direct_download] on an
    attachment, the minutes view of the owning document renders exactly
    the attachments of that document whose flag is off, in ascending order
    of index, so without that attachment; the download endpoint still
    hands the attachment to the file responder for a requester who holds
    the view permission. *)
Theorem hidden_attachment_still_downloadable {E : Env} toggle st attachment_id raw n a :
  is_ajax toggle = true →
  qd_get (POST toggle) "id" = Some attachment_id →
  qd_get (POST toggle) "no_direct_download" = Some raw →
  json_loads raw = Some (VBool true) →
  py_int attachment_id = Some n →
  attachments st !! n = Some a →
  can_be_changed_by (att_document a) (user toggle) = true →
  ∃ st',
    change_attachment_no_direct_download toggle st = (Ok (HttpResponse BodyEmpty), st') ∧
    (∀ view_request title row source,
       get_object_or_error MinutesDocument (user view_request)
         [MinutesDocument_get_view_permission] title st = (Ok (att_document a), st) →
       documents st !! att_document a = Some row →
       row !! "text" = Some (VStr source) →
       ∃ listed,
         Minutes.view view_request title st'
           = (Ok (Render "minutes_base.html"
                    [("document", CtxDocument (att_document a));
                     ("text", CtxStr (fst (markdown_convert source)));
                     ("toc", CtxStr (snd (markdown_convert source)));
                     ("attachments", CtxAttachments listed);
                     ("active_page", CtxStr "view");
                     ("permission_warning",
                      CtxWarning (permission_warning (user view_request)
                                    (att_document a)))]), st') ∧
         (n ∉ fst <$> listed) ∧
         (∀ k b, (k, b) ∈ listed ↔
                 attachments st' !! k = Some b ∧ att_document b = att_document a
                 ∧ att_no_direct_download b = false) ∧
         StronglySorted (fun x y => att_index (snd x) ≤ att_index (snd y)) listed) ∧
    (∀ download_request id,
       method download_request = "GET" →
       qd_get (GET download_request) "attachment_id" = Some id →
       py_int id = Some n →
       has_perm (user download_request)
         (ArgPerm (VIEW_PERMISSION_NAME (att_document a)))
         (Some (ArgDoc (att_document a))) = true →
       download_attachment download_request st'
         = (served_file download_request a, st')).
Proof.
  intros Hajax Hid Hraw Hjson Hint Ha Hperm.
  exists (set_attachments (fun m => <[n := set_no_direct_download true a]> m) st).
  split; [|split].
  - unfold change_attachment_no_direct_download.
    rewrite Hajax, (qd_get_truthy _ _ _ Hid). simpl. run. rewrite Hjson.
    erewrite bind_ok by (by apply Attachment_objects_get_ok).
    cbv beta iota zeta. rewrite Hperm. reflexivity.
  - intros view_request title row source Hdoc Hrow Htext.
    exists (direct_download_attachments (att_document a)
              (set_attachments (fun m => <[n := set_no_direct_download true a]> m) st)).
    split; [|split; [|split]].
    + unfold Minutes.view.
      erewrite bind_ok
        by (apply (get_object_or_error_documents _ _ _ _ st);
            [reflexivity | exact Hdoc]).
      erewrite bind_ok by (by eapply document_str_ok).
      by destruct (markdown_convert source).
    + intros Hin. apply list_elem_of_fmap in Hin as ([k b] & -> & Hkb).
      apply direct_download_attachments_elem in Hkb as (Hk & _ & Hflag).
      simpl in Hk. rewrite lookup_insert_eq in Hk. injection Hk as <-. done.
    + intros k b. apply direct_download_attachments_elem.
    + apply direct_download_attachments_sorted.
  - intros download_request id Hm Hq Hidn Hview. unfold download_attachment.
    rewrite Hm. simpl. run.
    erewrite bind_ok
      by (apply get_attachment_or_404_ok; [exact Hidn | apply lookup_insert_eq]).
    cbv beta iota zeta. simpl. rewrite Hview. reflexivity.
Qed.

Lemma hidden_attachment_still_downloadable_witness :
  ∃ st',
    @change_attachment_no_direct_download demo_env
      (ajax_post alice [("id", "2"); ("no_direct_download", "true")]) demo_store
      = (Ok (HttpResponse BodyEmpty), st') ∧
    (∃ listed,
       @Minutes.view demo_env (plain_get alice []) "minutes" st'
         = (Ok (Render "minutes_base.html"
                  [("document", CtxDocument 10); ("text", CtxStr "new text");
                   ("toc", CtxStr ""); ("attachments", CtxAttachments listed);
                   ("active_page", CtxStr "view");
                   ("permission_warning", CtxWarning None)]), st') ∧
       2 ∉ (fst <$> listed)) ∧
    @download_attachment demo_env (plain_get bob [("attachment_id", "2")]) st'
      = (Ok (FileResponse "/media/a/notes.txt" true "notes.txt"), st').
Proof.
  edestruct (@hidden_attachment_still_downloadable demo_env
               (ajax_post alice [("id", "2"); ("no_direct_download", "true")])
               demo_store "2" "true" 2)
    as (st' & Hrun & Hview & Hdown); [reflexivity..|].
  exists st'. split; [exact Hrun|]. split.
  - edestruct (Hview (plain_get alice []) "minutes" demo_row "new text")
      as (listed & Hpage & Hout & _); [reflexivity..|].
    exists listed. split; [exact Hpage | exact Hout].
  - apply (Hdown (plain_get bob [("attachment_id", "2")]) "2"); reflexivity.
Defined.

(** ** The minutes list *)

(** With the authorization library's [has_perm], the call of [list], which
    passes the document where the permission name belongs and the name
    where the object belongs, grants nothing to a user who is not a
    superuser. *)
Lemma group_by_year_swapped {E : Env} global grants u minutes years :
  (∀ v p o, has_perm v p o = backend_has_perm global grants v p o) →
  is_superuser u = false →
  group_by_year u minutes years = Ok years.
Proof.
  intros Hbackend Hsuper. induction minutes as [|[pk row] minutes IH]; [done|].
  simpl. rewrite Hbackend. unfold backend_has_perm. rewrite Hsuper. simpl. exact IH.
Qed.

Lemma minutes_list_swapped {E : Env} global grants request st :
  (∀ v p o, has_perm v p o = backend_has_perm global grants v p o) →
  is_authenticated (user request) = true →
  is_superuser (user request) = false →
  Minutes.list request st
    = (Ok (Render "minutes_list.html" [("years", CtxYears [])]), st).
Proof.
  intros Hbackend Hauth Hsuper. unfold Minutes.list. rewrite Hauth. simpl.
  erewrite bind_ok by reflexivity.
  unfold bind, lift. by rewrite (group_by_year_swapped _ _ _ _ _ Hbackend Hsuper).
Qed.

(** C8, evaluated: document 10 is a minutes document dated 2016 on which
    alice holds the view permission, both under the name the download
    endpoint checks and under the name [list] passes; the list handler
    still renders no year at all for her. *)
Lemma minutes_list_omits_viewable_document :
  instance_of (E := demo_env) MinutesDocument demo_row = true ∧
  row_date demo_row = Some (2016, 3, 4) ∧
  @has_perm demo_env alice (ArgPerm (@MinutesDocument_get_view_permission demo_env))
    (Some (ArgDoc 10)) = true ∧
  @has_perm demo_env alice (ArgPerm (@VIEW_PERMISSION_NAME demo_env 10))
    (Some (ArgDoc 10)) = true ∧
  @Minutes.list demo_env (plain_get alice []) demo_store
    = (Ok (Render "minutes_list.html" [("years", CtxYears [])]), demo_store).
Proof.
  do 4 (split; [reflexivity|]).
  eapply (@minutes_list_swapped demo_env); [|reflexivity..]. intros v p o. reflexivity.
Qed.

(** ** Grouping by year *)

Lemma group_by_year_spec {E : Env} u minutes years years' :
  group_by_year u minutes years = Ok years' →
  ∀ y, years' !! y
       = match years !! y, listed_in_year u y minutes with
         | None, [] => None
         | o, l => Some (default [] o ++ l)
         end.
Proof.
  revert years. induction minutes as [|[pk row] rest IH]; intros years Hrun y.
  - injection Hrun as <-. unfold listed_in_year. simpl.
    destruct (years !! y); [by rewrite app_nil_r | done].
  - cbn [group_by_year] in Hrun. unfold listed_in_year. cbn [List.filter fst snd].
    destruct (has_perm u (ArgDoc pk) (Some (ArgPerm MinutesDocument_get_view_permission)));
      cbn [negb andb] in *; [|by apply IH].
    destruct (row_date row) as [[[yr mo] da]|]; [|discriminate].
    rewrite (IH _ Hrun y). fold (listed_in_year u y rest).
    destruct (Z.eqb_spec yr y) as [->|Hne].
    + rewrite lookup_insert_eq. cbn [fmap list_fmap fst].
      assert (default [] ((match years !! y with
                           | Some _ => years
                           | None => <[y:=[]]> years
                           end) !! y) = default [] (years !! y)) as ->.
      { destruct (years !! y) eqn:Hy; [by rewrite Hy | by rewrite lookup_insert_eq]. }
      change (default [] (Some (default [] (years !! y) ++ [pk])))
        with (default [] (years !! y) ++ [pk]).
      rewrite <- app_assoc. simpl.
      by destruct (years !! y).
    + rewrite lookup_insert_ne by done.
      assert ((match years !! yr with
               | Some _ => years
               | None => <[yr:=[]]> years
               end) !! y = years !! y) as ->.
      { destruct (years !! yr); [done | by rewrite lookup_insert_ne]. }
      done.
Qed.

Lemma listed_in_year_elem {E : Env} u y minutes pk :
  pk ∈ listed_in_year u y minutes ↔
  ∃ row mo da,
    (pk, row) ∈ minutes ∧
    has_perm u (ArgDoc pk) (Some (ArgPerm MinutesDocument_get_view_permission)) = true ∧
    row_date row = Some (y, mo, da).
Proof.
  unfold listed_in_year. rewrite list_elem_of_fmap. split.
  - intros ([k row] & -> & Hin). apply list_elem_of_In, filter_In in Hin as [Hin Hok].
    simpl in *. apply andb_true_iff in Hok as [Hperm Hyear].
    destruct (row_date row) as [[[yr mo] da]|] eqn:Hdate; [|done].
    apply Z.eqb_eq in Hyear as ->. exists row, mo, da.
    split; [by apply list_elem_of_In | done].
  - intros (row & mo & da & Hin & Hperm & Hdate). exists (pk, row). split; [done|].
    apply list_elem_of_In, filter_In. split; [by apply list_elem_of_In|].
    simpl. rewrite Hperm, Hdate. simpl. apply Z.eqb_refl.
Qed.

Lemma minutes_by_date_elem {E : Env} st pk row :
  (pk, row) ∈ minutes_by_date st ↔
  documents st !! pk = Some row ∧ instance_of MinutesDocument row = true.
Proof.
  unfold minutes_by_date. rewrite sort_by_perm.
  rewrite list_elem_of_In, filter_In, <- list_elem_of_In, elem_of_map_to_list. done.
Qed.

(** The rendering of [list], spelled out. *)
Lemma list_render_spec {E : Env} request st response st' :
  is_authenticated (user request) = true →
  Minutes.list request st = (Ok response, st') →
  ∃ years,
    response = Render "minutes_list.html" [("years", CtxYears years)] ∧
    st' = st ∧
    StronglySorted (fun a b => fst b ≤ fst a) years ∧
    (∀ y l, (y, l) ∈ years ↔
            l ≠ [] ∧ l = listed_in_year (user request) y (minutes_by_date st)) ∧
    (∀ y pk, pk ∈ listed_in_year (user request) y (minutes_by_date st) ↔
             ∃ row mo da,
               documents st !! pk = Some row ∧
               instance_of MinutesDocument row = true ∧
               has_perm (user request) (ArgDoc pk)
                 (Some (ArgPerm MinutesDocument_get_view_permission)) = true ∧
               row_date row = Some (y, mo, da)).
Proof.
  intros Hauth. unfold Minutes.list. rewrite Hauth. cbn [negb].
  erewrite bind_ok by reflexivity. unfold bind, lift.
  destruct (group_by_year (user request) (minutes_by_date st) ∅) as [years|] eqn:Hrun;
    [|discriminate].
  intros [= <- <-]. eexists. split; [reflexivity|]. split; [done|]. split; [|split].
  - unfold sort_years. eapply StronglySorted_weaken; [|apply sort_by_sorted].
    + intros a b Hab. by apply Z.leb_le.
    + intros a b Hab. apply Z.leb_gt in Hab. apply Z.leb_le. lia.
    + intros a b c Hab Hbc. apply Z.leb_le in Hab, Hbc. apply Z.leb_le. lia.
  - intros y l. unfold sort_years. rewrite sort_by_perm, elem_of_map_to_list.
    rewrite (group_by_year_spec _ _ _ _ Hrun y), lookup_empty.
    destruct (listed_in_year (user request) y (minutes_by_date st)) as [|pk ids].
    + split; [done | by intros [? ->]].
    + simpl. split; [by intros [= <-] | by intros [_ ->]].
  - intros y pk. rewrite listed_in_year_elem. split.
    + intros (row & mo & da & Hin & Hperm & Hdate).
      apply minutes_by_date_elem in Hin as [Hrow Hinst]. by exists row, mo, da.
    + intros (row & mo & da & Hrow & Hinst & Hperm & Hdate). exists row, mo, da.
      split; [by apply minutes_by_date_elem | done].
Qed.

(** What [list] renders: the years in descending order, each with the
    minutes documents dated in it for which the handler's permission call
    answers true, and no year without such a document. *)
Theorem list_groups_by_year {E : Env} request st response st' :
  is_authenticated (user request) = true →
  Minutes.list request st = (Ok response, st') →
  ∃ years,
    response = Render "minutes_list.html" [("years", CtxYears years)] ∧
    st' = st ∧
    StronglySorted (fun a b => fst b ≤ fst a) years ∧
    (∀ y l, (y, l) ∈ years ↔
            l ≠ [] ∧ l = listed_in_year (user request) y (minutes_by_date st)) ∧
    (∀ y pk, pk ∈ listed_in_year (user request) y (minutes_by_date st) ↔
             ∃ row mo da,
               documents st !! pk = Some row ∧
               instance_of MinutesDocument row = true ∧
               has_perm (user request) (ArgDoc pk)
                 (Some (ArgPerm MinutesDocument_get_view_permission)) = true ∧
               row_date row = Some (y, mo, da)).
Proof.
  intros Hauth Hrun.
  destruct (list_render_spec _ _ _ _ Hauth Hrun)
    as (years & Hresp & Hst & Hsorted & Hgroups & Hmembers).
  exists years. split; [exact Hresp|]. split; [exact Hst|].
  split; [exact Hsorted|]. split; [exact Hgroups | exact Hmembers].
Qed.

(** ** Creating a minutes document *)

Lemma starts_with_app a rest : starts_with a (a +:+ rest) = true.
Proof.
  induction a as [|c a IH]; [done|].
  change (String c a +:+ rest) with (String c (a +:+ rest)).
  cbn [starts_with]. by rewrite Ascii.eqb_refl, IH.
Qed.

Lemma str_contains_cons needle c hay :
  str_contains needle (String c hay)
  = starts_with needle (String c hay) || str_contains needle hay.
Proof. done. Qed.

Lemma str_contains_starts_with needle hay :
  starts_with needle hay = true → str_contains needle hay = true.
Proof. intros H. destruct hay; cbn [str_contains]; by rewrite H. Qed.

Lemma format1_cons c rest arg :
  format1 (String c rest) arg
  = if Ascii.eqb c "{" && starts_with "}" rest
    then arg +:+ match rest with String _ rest' => rest' | EmptyString => EmptyString end
    else String c (format1 rest arg).
Proof. done. Qed.

Lemma starts_with_braces c rest :
  starts_with "{}" (String c rest) = Ascii.eqb "{" c && starts_with "}" rest.
Proof. done. Qed.

Lemma format1_contains template arg :
  str_contains "{}" template = true → str_contains arg (format1 template arg) = true.
Proof.
  induction template as [|c rest IH]; [done|].
  rewrite str_contains_cons, format1_cons, starts_with_braces.
  rewrite (Ascii.eqb_sym "{"%char c).
  destruct (Ascii.eqb c "{" && starts_with "}" rest).
  - intros _. apply str_contains_starts_with, starts_with_app.
  - cbn [orb]. intros Hrec.
    rewrite str_contains_cons, (IH Hrec). apply orb_true_r.
Qed.

Lemma foldr_max_ge (l : list Z) x : x ∈ l → x ≤ foldr Z.max 0 l.
Proof.
  induction l as [|y l IH]; [by intros ?%elem_of_nil|].
  intros [->|Hx]%elem_of_cons; simpl; [lia|]. specialize (IH Hx). lia.
Qed.

Lemma next_pk_fresh {A} (m : gmap Z A) : m !! next_pk m = None.
Proof.
  destruct (m !! next_pk m) as [v|] eqn:Hv; [|done]. exfalso.
  assert (next_pk m ∈ fst <$> map_to_list m) as Hin.
  { apply list_elem_of_fmap. exists (next_pk m, v). split; [done|].
    by apply elem_of_map_to_list. }
  apply foldr_max_ge in Hin. unfold next_pk in Hin. lia.
Qed.

Lemma List_filter_perm {A} (f : A → bool) (l l' : list A) :
  l ≡ₚ l' → List.filter f l ≡ₚ List.filter f l'.
Proof.
  induction 1 as [|x l l' _ IH|x y l|l1 l2 l3 _ IH1 _ IH2]; simpl.
  - done.
  - destruct (f x); [by constructor | done].
  - destruct (f x), (f y); try done. apply Permutation_swap.
  - by etrans.
Qed.

Lemma List_filter_nil {A} (f : A → bool) (l : list A) :
  (∀ x, In x l → f x = false) → List.filter f l = [].
Proof.
  induction l as [|x l IH]; [done|]. intros H. simpl.
  rewrite (H x (or_introl eq_refl)). apply IH. intros y Hy. apply H. by right.
Qed.

(** A freshly inserted row is the only one with its url title when no
    stored row carried that title. *)
Lemma documents_by_url_title_insert {E : Env} klass title pk row st :
  documents st !! pk = None →
  (∀ k r, documents st !! k = Some r → has_url_title title r = false) →
  instance_of klass row = true →
  has_url_title title row = true →
  documents_by_url_title klass title (set_documents (fun m => <[pk := row]> m) st) = [pk].
Proof.
  intros Hfresh Hnone Hinst Htitle. unfold documents_by_url_title. simpl.
  set (f := fun kv : Z * gmap string Value =>
              instance_of klass (snd kv) && has_url_title title (snd kv)).
  assert (List.filter f (map_to_list (<[pk := row]> (documents st))) ≡ₚ [(pk, row)])
    as Hperm.
  { rewrite (List_filter_perm f _ _ (map_to_list_insert _ _ _ Hfresh)). simpl.
    unfold f at 1. simpl. rewrite Hinst, Htitle. simpl.
    rewrite List_filter_nil; [done|]. intros [k r] Hin. unfold f. simpl.
    apply list_elem_of_In, elem_of_map_to_list in Hin.
    rewrite (Hnone _ _ Hin). apply andb_false_r. }
  apply Permutation_singleton_r in Hperm. by rewrite Hperm.
Qed.

Lemma get_or_create_new {E : Env} u url_title title st :
  (∀ k r, documents st !! k = Some r → has_url_title url_title r = false) →
  accepts MinutesDocument_class (minutes_kwargs u url_title title u) = true →
  auto_pk MinutesDocument_class = true →
  get_or_create u url_title title u st
    = (Ok (next_pk (documents st)),
       set_documents
         (fun m => <[next_pk (documents st)
                     := created_row u url_title title (next_pk (documents st))]> m) st).
Proof.
  intros Hnone Hacc Hauto. unfold get_or_create.
  erewrite bind_ok by reflexivity.
  rewrite List_filter_nil.
  - unfold construct. rewrite Hacc. erewrite bind_ok by reflexivity.
    unfold save, auto_pk in *.
    assert ((minutes_kwargs u url_title title u ∪ cls_defaults MinutesDocument_class)
              !! "id" = cls_defaults MinutesDocument_class !! "id") as Hid.
    { apply lookup_union_r. done. }
    rewrite Hid.
    destruct (cls_defaults MinutesDocument_class !! "id") as [[]|]; try done.
  - intros [k r] Hin. apply list_elem_of_In, elem_of_map_to_list in Hin. simpl.
    specialize (Hnone _ _ Hin). unfold has_url_title in Hnone. unfold column_is at 2.
    destruct (r !! "url_title") as [[]|]; try by rewrite ?andb_false_r.
    rewrite Hnone. by rewrite ?andb_false_r.
Qed.

Lemma created_row_columns {E : Env} u url_title title pk :
  let row := created_row u url_title title pk in
  instance_of MinutesDocument row = true ∧
  row !! "title" = Some (VStr title) ∧
  row !! "url_title" = Some (VStr url_title) ∧
  row !! "author_id" = Some (VInt (user_pk u)) ∧
  row !! "moderator_id" = Some (VInt (user_pk u)).
Proof.
  unfold created_row, instance_of. repeat split.
  - rewrite lookup_insert_ne, lookup_insert_eq by done. apply Z.eqb_refl.
  - rewrite !lookup_insert_ne by done. by erewrite lookup_union_Some_l.
  - rewrite !lookup_insert_ne by done. by erewrite lookup_union_Some_l.
  - rewrite !lookup_insert_ne by done. by erewrite lookup_union_Some_l.
  - rewrite !lookup_insert_ne by done. by erewrite lookup_union_Some_l.
Qed.

(** C9: an authorized create request stores one new minutes document whose
    title is the (translated) template with the timestamp put in, so it
    contains the timestamp, whose url title is the slug of that title and
    whose author and moderator are the requester; the handler's answer is
    that of the edit handler called for the new url title on the store
    that holds the new document, which, when the requester may change the
    new document and the edit form reports no saved submission, is the
    rendered edit page of that same document. *)
Theorem create_opens_new_document_for_editing {E : Env} request now st :
  let st0 := delete_old_empty_pages st in
  let title := format1 (ugettext "New minutes document from {}") now in
  let pk := next_pk (documents st0) in
  let row := created_row (user request) (slugify title) title pk in
  let st1 := set_documents (fun m => <[pk := row]> m) st0 in
  has_perm (user request) (ArgPerm "information_pages.add_informationdocument") None
    = true →
  str_contains "{}" (ugettext "New minutes document from {}") = true →
  (∀ k r, documents st0 !! k = Some r → has_url_title (slugify title) r = false) →
  accepts MinutesDocument_class
    (minutes_kwargs (user request) (slugify title) title (user request)) = true →
  auto_pk MinutesDocument_class = true →
  documents st0 !! pk = None ∧
  instance_of MinutesDocument row = true ∧
  row !! "title" = Some (VStr title) ∧
  str_contains now title = true ∧
  row !! "url_title" = Some (VStr (slugify title)) ∧
  row !! "author_id" = Some (VInt (user_pk (user request))) ∧
  row !! "moderator_id" = Some (VInt (user_pk (user request))) ∧
  Minutes.create request now st = Minutes.edit request (slugify title) st1 ∧
  (has_perm (user request) (ArgPerm "minutes.change_minutesdocument")
     (Some (ArgDoc pk)) = true →
   ∀ form st2 uploaded attachment_form attachment st3 row3 url_title,
     handle_edit request pk
       {| formset_data := if qd_truthy (POST request) then Some (POST request) else None;
          formset_instance := pk |} st1 = ((false, form), st2) →
     handle_attachment request pk st2 = ((uploaded, attachment_form, attachment), st3) →
     documents st3 !! pk = Some row3 →
     row3 !! "url_title" = Some (VStr url_title) →
     Minutes.create request now st
       = (Ok (Render "minutes_edit.html"
                [("document", CtxDocument pk);
                 ("edit_url", CtxStr (reverse "minutes:edit" [url_title]));
                 ("form", CtxForm form);
                 ("attachment_form", CtxForm attachment_form);
                 ("active_page", CtxStr "edit");
                 ("guest_formset",
                  CtxFormset
                    {| formset_data :=
                         if qd_truthy (POST request) then Some (POST request) else None;
                       formset_instance := pk |});
                 ("permission_warning",
                  CtxWarning (permission_warning (user request) pk));
                 ("supported_image_types", CtxStrings SUPPORTED_IMAGE_TYPES);
                 ("minutes",
                  CtxDocuments
                    (get_objects_for_user (user request)
                       MinutesDocument_VIEW_PERMISSION_NAME
                       (cls_ctype MinutesDocument_class) st3));
                 ("information_documents",
                  CtxDocuments
                    (get_objects_for_user (user request)
                       InformationDocument_VIEW_PERMISSION_NAME
                       InformationDocument_ctype st3));
                 ("polls",
                  CtxDocuments
                    (get_objects_for_user (user request) Poll_VIEW_PERMISSION_NAME
                       Poll_ctype st3))]), st3)).
Proof.
  intros st0 title pk row st1 Hadd Hfield Hnone Hacc Hauto.
  destruct (created_row_columns (user request) (slugify title) title pk)
    as (Hinst & Htitle & Hurl & Hauthor & Hmod).
  assert (Minutes.create request now st = Minutes.edit request (slugify title) st1)
    as Hcreate.
  { unfold Minutes.create. rewrite Hadd.
    unfold bind at 1. unfold modify at 1. fold st0. fold title.
    unfold bind at 1. by rewrite (get_or_create_new _ _ _ _ Hnone Hacc Hauto). }
  split; [apply next_pk_fresh|].
  do 2 (split; [done|]). split; [by apply format1_contains|].
  do 4 (split; [done|]).
  intros Hchange form st2 uploaded attachment_form attachment st3 row3 url_title
    Hedit Hupload Hrow3 Hurl3.
  rewrite Hcreate. unfold Minutes.edit.
  assert (get_object_or_error MinutesDocument (user request)
            ["minutes.change_minutesdocument"] (slugify title) st1 = (Ok pk, st1))
    as Hgate.
  { unfold get_object_or_error.
    rewrite (documents_by_url_title_insert MinutesDocument (slugify title) pk row st0);
      [|apply next_pk_fresh|exact Hnone|exact Hinst|].
    - simpl. by rewrite Hchange.
    - unfold has_url_title, row. rewrite Hurl. apply String.eqb_refl. }
  erewrite bind_ok by exact Hgate.
  unfold bind at 1. rewrite Hedit.
  unfold bind at 1. rewrite Hupload.
  erewrite bind_ok by reflexivity.
  erewrite bind_ok by (by eapply document_str_ok).
  reflexivity.
Qed.

Lemma create_opens_new_document_for_editing_witness :
  ∃ st1,
    documents st1 !! 11
      = Some (@created_row demo_env alice
                "New minutes document from 2016-03-04 10:00:00.000001"
                "New minutes document from 2016-03-04 10:00:00.000001" 11) ∧
    str_contains "2016-03-04 10:00:00.000001"
      "New minutes document from 2016-03-04 10:00:00.000001" = true ∧
    ∃ context,
      @Minutes.create demo_env (plain_get alice []) "2016-03-04 10:00:00.000001" demo_store
        = (Ok (Render "minutes_edit.html" (("document", CtxDocument 11) :: context)), st1).
Proof.
  pose proof (@create_opens_new_document_for_editing demo_env (plain_get alice [])
                "2016-03-04 10:00:00.000001" demo_store) as H.
  cbv zeta in H.
  destruct H as (_ & _ & _ & Hcontains & _ & _ & _ & _ & Hedit);
    [reflexivity | reflexivity | | reflexivity | reflexivity |].
  - intros k r Hr.
    change (documents (@delete_old_empty_pages demo_env demo_store))
      with ({[ 10 := demo_row ]} : gmap Z (gmap string Value)) in Hr.
    apply lookup_singleton_Some in Hr as [_ <-]. vm_compute. reflexivity.
  - eexists. split; [|split; [exact Hcontains|]].
    2:{ eexists. eapply Hedit; reflexivity. }
    reflexivity.
Defined.

(** ** Reverting *)

Lemma omap_attname_cons cls item items :
  omap (attname_of cls) (item :: items)
  = match attname_of cls item with
    | Some a => a :: omap (attname_of cls) items
    | None => omap (attname_of cls) items
    end.
Proof. done. Qed.

Lemma revert_fields_spec cls items nf0 mm0 nf mm :
  NoDup (fst <$> items) →
  NoDup (omap (attname_of cls) items) →
  (∀ a, a ∈ omap (attname_of cls) items → a ∉ fst <$> items) →
  revert_fields cls items (nf0, mm0) = Ok (nf, mm) →
  (∀ k v, (k, v) ∈ items → entry_split cls nf0 nf mm k v) ∧
  (∀ x, x ∉ fst <$> items → x ∉ omap (attname_of cls) items → nf !! x = nf0 !! x) ∧
  (∀ x, x ∉ fst <$> items → mm !! x = mm0 !! x).
Proof.
  revert nf0 mm0. induction items as [|[k0 v0] rest IH]; intros nf0 mm0 Hkeys Hatt Hsep Hrun.
  - injection Hrun as <- <-. split; [|done]. by intros k v ?%elem_of_nil.
  - rewrite fmap_cons in Hkeys. apply NoDup_cons in Hkeys as [Hk0 Hkeys].
    cbn [revert_fields] in Hrun.
    destruct (revert_field cls (nf0, mm0) (k0, v0)) as [[nf1 mm1]|] eqn:Hstep;
      [|discriminate].
    assert (Hatt' : NoDup (omap (attname_of cls) rest)).
    { rewrite omap_attname_cons in Hatt.
      destruct (attname_of cls (k0, v0)); [by apply NoDup_cons in Hatt as [_ ?] | done]. }
    assert (Hsep' : ∀ a, a ∈ omap (attname_of cls) rest → a ∉ fst <$> rest).
    { intros a Ha Hin. apply (Hsep a).
      - rewrite omap_attname_cons. destruct (attname_of cls (k0, v0)); [by right | done].
      - rewrite fmap_cons. by right. }
    destruct (IH nf1 mm1 Hkeys Hatt' Hsep' Hrun) as (IH1 & IH2 & IH3).
    assert (Hk0att : k0 ∉ omap (attname_of cls) rest).
    { intros Hin. apply (Hsep k0).
      - rewrite omap_attname_cons. destruct (attname_of cls (k0, v0)); [by right | done].
      - rewrite fmap_cons. by left. }
    (* the head entry's own step *)
    assert (Hhead : entry_split cls nf0 nf1 mm1 k0 v0
                    ∧ (∀ x, x ≠ k0 → attname_of cls (k0, v0) ≠ Some x →
                            nf1 !! x = nf0 !! x)
                    ∧ (∀ x, x ≠ k0 → mm1 !! x = mm0 !! x)).
    { unfold revert_field in Hstep. unfold entry_split.
      destruct (str_contains "_ptr" k0) eqn:Hp.
      - injection Hstep as <- <-. split; [apply lookup_delete_eq|].
        split; [|done]. intros x Hx _. by apply lookup_delete_ne.
      - destruct (cls_attr cls k0) as [[|a0|]|] eqn:Hattr; try discriminate;
          injection Hstep as <- <-.
        + split; [split; [apply lookup_insert_eq | apply lookup_delete_eq]|].
          split; [intros x Hx _; by apply lookup_delete_ne|].
          intros x Hx. by apply lookup_insert_ne.
        + assert (attname_of cls (k0, v0) = Some a0) as Hname.
          { unfold attname_of. simpl. by rewrite Hp, Hattr. }
          assert (a0 ≠ k0) as Hne.
          { intros ->. apply (Hsep k0).
            - rewrite omap_attname_cons, Hname. by left.
            - rewrite fmap_cons. by left. }
          split; [split|].
          * rewrite lookup_delete_ne by done. apply lookup_insert_eq.
          * apply lookup_delete_eq.
          * split; [|done]. intros x Hx Hxa.
            rewrite lookup_delete_ne by done. apply lookup_insert_ne. congruence.
        + split; [done|]. split; done. }
    destruct Hhead as (Hh1 & Hh2 & Hh3).
    split; [|split].
    + intros k v [[= -> ->]|Hin]%elem_of_cons.
      * (* the head entry: nothing later touches its key or its column *)
        pose proof (IH2 k0 Hk0 Hk0att) as Hnf. pose proof (IH3 k0 Hk0) as Hmm.
        unfold entry_split in *. destruct (str_contains "_ptr" k0) eqn:Hp; [congruence|].
        destruct (cls_attr cls k0) as [[|a0|]|] eqn:Hattr; try done.
        -- rewrite Hnf, Hmm. done.
        -- split; [|by rewrite Hnf; apply Hh1]. destruct Hh1 as [Ha0 _].
           assert (attname_of cls (k0, v0) = Some a0) as Hname.
           { unfold attname_of. simpl. by rewrite Hp, Hattr. }
           rewrite omap_attname_cons, Hname in Hatt.
           apply NoDup_cons in Hatt as [Hfresh _].
           rewrite IH2; [done| |done].
           intros Hin. apply (Hsep a0).
           ++ rewrite omap_attname_cons, Hname. by left.
           ++ rewrite fmap_cons. by right.
        -- congruence.
      * (* a later entry: the head step left its key alone *)
        assert (k ≠ k0) as Hne.
        { intros ->. apply Hk0. apply list_elem_of_fmap. by exists (k0, v). }
        specialize (IH1 k v Hin). unfold entry_split in *.
        destruct (str_contains "_ptr" k); [done|].
        destruct (cls_attr cls k) as [[|a|]|]; try done.
        rewrite IH1. apply Hh2; [done|]. intros Hname. apply (Hsep k).
        -- rewrite omap_attname_cons, Hname. by left.
        -- rewrite fmap_cons. right. apply list_elem_of_fmap. by exists (k, v).
    + intros x Hx Hxa. rewrite fmap_cons in Hx. apply not_elem_of_cons in Hx as [Hx0 Hx].
      rewrite omap_attname_cons in Hxa.
      rewrite IH2; [apply Hh2; [done|]| done |].
      * intros Hname. rewrite Hname in Hxa. apply Hxa. by left.
      * intros Hin. apply Hxa. destruct (attname_of cls (k0, v0)); [by right | done].
    + intros x Hx. rewrite fmap_cons in Hx. apply not_elem_of_cons in Hx as [Hx0 Hx].
      rewrite IH3 by done. by apply Hh3.
Qed.

Lemma snapshot_fits_spec cls fields :
  snapshot_fits cls fields = true →
  NoDup (omap (attname_of cls) (map_to_list fields)) ∧
  (∀ a, a ∈ omap (attname_of cls) (map_to_list fields) →
        fields !! a = None ∧ a ≠ "polymorphic_ctype_id") ∧
  fields !! "polymorphic_ctype_id" = None ∧
  cls_attr cls "id" = None.
Proof.
  unfold snapshot_fits. intros H.
  apply andb_true_iff in H as [H Hid]. apply andb_true_iff in H as [H Hct].
  apply andb_true_iff in H as [Hnd Hall].
  split; [by apply bool_decide_eq_true in Hnd|]. split; [|split].
  - intros a Ha. rewrite forallb_forall in Hall.
    apply list_elem_of_In in Ha. specialize (Hall a Ha).
    destruct (fields !! a); [done|]. split; [done|].
    intros ->. done.
  - by destruct (fields !! "polymorphic_ctype_id").
  - by destruct (cls_attr cls "id").
Qed.

(** The loop of [revert] on a snapshot that fits the class. *)
Lemma revert_fields_snapshot cls fields nf mm :
  snapshot_fits cls fields = true →
  revert_fields cls (map_to_list fields) (fields, ∅) = Ok (nf, mm) →
  ∀ k v, fields !! k = Some v → entry_split cls fields nf mm k v.
Proof.
  intros Hfits Hrun k v Hk.
  destruct (snapshot_fits_spec _ _ Hfits) as (Hnd & Hsep & _ & _).
  destruct (revert_fields_spec cls (map_to_list fields) fields ∅ nf mm) as (H1 & _).
  - apply NoDup_fst_map_to_list.
  - done.
  - intros a Ha Hin. destruct (Hsep a Ha) as [Hnone _].
    apply list_elem_of_fmap in Hin as ([a' v'] & -> & Hin).
    apply elem_of_map_to_list in Hin. simpl in Hnone. congruence.
  - done.
  - apply H1. by apply elem_of_map_to_list.
Qed.

Lemma union_empty_gset (X : gset Z) : ∅ ∪ X = X.
Proof. apply union_empty_l_L. Qed.

(** The restoring loop over a list of entries with distinct keys. *)
Lemma restore_loop_spec pk (items : list (string * Value)) st st' :
  NoDup (fst <$> items) →
  for_each items
    (fun item => bind (relation_clear pk (fst item))
                   (fun _ => relation_add pk (fst item) (snd item))) st = (Ok tt, st') →
  documents st' = documents st ∧
  (∀ k v, (k, v) ∈ items →
          ∃ pks, v = VPks pks ∧ relations st' !! (pk, k) = Some (list_to_set pks)) ∧
  (∀ k, k ∉ fst <$> items → relations st' !! (pk, k) = relations st !! (pk, k)).
Proof.
  revert st. induction items as [|[k0 v0] rest IH]; intros st Hnd Hrun.
  - injection Hrun as <-. split; [done|]. split; [|done]. by intros k v ?%elem_of_nil.
  - rewrite fmap_cons in Hnd. apply NoDup_cons in Hnd as [Hk0 Hnd]. simpl in Hk0.
    cbn [for_each] in Hrun. unfold bind at 1 2 in Hrun. simpl in Hrun.
    destruct v0 as [| | | | |pks0]; try discriminate. simpl in Hrun.
    apply IH in Hrun as (Hdocs & Hin & Hout); [|done].
    split; [by rewrite Hdocs|]. split.
    + intros k v Hkv. apply elem_of_cons in Hkv as [Heq|Hkv]; [|by apply Hin].
      injection Heq as -> ->. exists pks0. split; [done|]. rewrite (Hout _ Hk0). simpl.
      rewrite lookup_insert_eq. f_equal. rewrite lookup_insert_eq. simpl.
      apply union_empty_gset.
    + intros k Hk. rewrite fmap_cons in Hk. apply not_elem_of_cons in Hk as [Hne Hk].
      simpl in Hne. rewrite (Hout _ Hk). simpl.
      rewrite !lookup_insert_ne by congruence. done.
Qed.

Lemma restore_many_to_many_spec pk mm st st' :
  restore_many_to_many pk mm st = (Ok tt, st') →
  documents st' = documents st ∧
  ∀ k v, mm !! k = Some v →
         ∃ pks, v = VPks pks ∧ relations st' !! (pk, k) = Some (list_to_set pks).
Proof.
  intros Hrun. unfold restore_many_to_many in Hrun.
  apply restore_loop_spec in Hrun as (Hdocs & Hin & _); [|apply NoDup_fst_map_to_list].
  split; [done|]. intros k v Hk. apply Hin. by apply elem_of_map_to_list.
Qed.

(** C1: after a revert to version V of document D that comes back with
    success, D's row holds, for every entry of V's snapshot other than the
    content type: the class default instead of the snapshot value when the
    key is an inheritance pointer; the snapshot value under the same key
    for a plain field; the snapshot value under the field's column for a
    relation to one object; and for a many-to-many field the relation of D
    is exactly the snapshot's list of keys, whatever it was before. *)
Theorem revert_restores_snapshot {E : Env}
    request st st' body version_id url_title document V ctype cls :
  is_ajax request = true →
  qd_get (POST request) "id" = Some version_id →
  qd_get (POST request) "url_title" = Some url_title →
  get_object_or_error Document (user request) ["change_document"] url_title st
    = (Ok document, st) →
  find_version (get_for_object document st) version_id = Ok (Some V) →
  field_dict V !! "polymorphic_ctype" = Some (VInt ctype) →
  content_type_model_class ctype = Some cls →
  field_dict V !! "id" = Some (VInt document) →
  snapshot_fits cls (delete "polymorphic_ctype" (field_dict V)) = true →
  revert request st = (Ok (HttpResponse body), st') →
  ∃ row,
    documents st' !! document = Some row ∧
    ∀ key value,
      field_dict V !! key = Some value → key ≠ "polymorphic_ctype" →
      if str_contains "_ptr" key then row !! key = cls_defaults cls !! key
      else
        match cls_attr cls key with
        | None => row !! key = Some value
        | Some (AttrField attname) => row !! attname = Some value
        | Some AttrManyToMany =>
            ∃ pks, value = VPks pks ∧
                   relations st' !! (document, key) = Some (list_to_set pks)
        | Some AttrOther => False
        end.
Proof.
  intros Hajax Hid Hurl Hdoc Hfind Hctype Hcls Hpk Hfits.
  rewrite (revert_after_scan _ _ _ _ _ Hajax Hid Hurl Hdoc), Hfind.
  destruct (revision_revert V st) as [ok st1]. destruct ok; [|discriminate].
  cbn [negb]. rewrite Hctype. cbv zeta.
  set (fields := delete "polymorphic_ctype" (field_dict V)) in *.
  unfold bind at 1. unfold get_model_class. rewrite Hcls. unfold ret at 1.
  unfold bind at 1. unfold lift at 1.
  destruct (revert_fields cls (map_to_list fields) (fields, ∅)) as [[nf mm]|] eqn:Hloop;
    [|discriminate].
  pose proof (revert_fields_snapshot _ _ _ _ Hfits Hloop) as Hsplit.
  destruct (snapshot_fits_spec _ _ Hfits) as (_ & Hsep & Hnoct & Hnoid).
  cbn [fst snd]. unfold bind at 1. unfold construct.
  destruct (accepts cls nf); [|discriminate]. unfold ret at 1.
  (* the instance carries D's primary key *)
  assert (nf !! "id" = Some (VInt document)) as Hnfid.
  { assert (fields !! "id" = Some (VInt document)) as Hfid
      by (unfold fields; by rewrite lookup_delete_ne).
    specialize (Hsplit _ _ Hfid). unfold entry_split in Hsplit.
    change (str_contains "_ptr" "id") with false in Hsplit. cbv iota in Hsplit.
    rewrite Hnoid in Hsplit. congruence. }
  unfold bind at 1. unfold atomic. unfold bind at 1. unfold save.
  rewrite (lookup_union_Some_l _ _ _ _ Hnfid).
  unfold bind at 1. unfold modify at 1. unfold ret at 1.
  set (row := <["polymorphic_ctype_id" := VInt (cls_ctype cls)]> (nf ∪ cls_defaults cls)).
  set (st2 := set_documents (fun m => <[document := row]> m) st1).
  unfold bind at 1.
  destruct (restore_many_to_many document mm st2) as [[[]|e] st3] eqn:Hrestore;
    [|discriminate].
  apply restore_many_to_many_spec in Hrestore as [Hdocs Hrel].
  unfold modify, ret. intros [= _ <-].
  exists row. split.
  { simpl. rewrite Hdocs. simpl. apply lookup_insert_eq. }
  intros key value Hkey Hne.
  assert (fields !! key = Some value) as Hfkey
    by (unfold fields; by rewrite lookup_delete_ne).
  specialize (Hsplit _ _ Hfkey). unfold entry_split in Hsplit.
  assert (key ≠ "polymorphic_ctype_id") as Hnct by congruence.
  destruct (str_contains "_ptr" key) eqn:Hptr.
  - unfold row. rewrite lookup_insert_ne by done. by apply lookup_union_r.
  - destruct (cls_attr cls key) as [[|attname|]|] eqn:Hattr; try done.
    + destruct Hsplit as [Hmm _]. destruct (Hrel _ _ Hmm) as (pks & -> & Hset).
      exists pks. split; [done|]. exact Hset.
    + destruct Hsplit as [Hnf _].
      assert (attname ≠ "polymorphic_ctype_id") as Hatt.
      { apply (Hsep attname). apply list_elem_of_omap. exists (key, value).
        split; [by apply elem_of_map_to_list|].
        unfold attname_of. simpl. by rewrite Hptr, Hattr. }
      unfold row. rewrite lookup_insert_ne by done. by apply lookup_union_Some_l.
    + unfold row. rewrite lookup_insert_ne by done.
      apply lookup_union_Some_l. congruence.
Qed.

Lemma revert_restores_snapshot_witness :
  let request := ajax_post alice [("id", "5"); ("url_title", "minutes")] in
  let st' := snd (@revert demo_env request demo_store) in
  fst (@revert demo_env request demo_store) = Ok (HttpResponse BodyEmpty) ∧
  ∃ row,
    documents st' !! 10 = Some row ∧
    row !! "text" = Some (VStr "old text") ∧
    row !! "author_id" = Some (VInt 1) ∧
    row !! "document_ptr" = None ∧
    relations demo_store !! (10, "participants") = Some {[ 3 ]} ∧
    relations st' !! (10, "participants") = Some (list_to_set [1; 2]).
Proof.
  intros request st'. split; [reflexivity|].
  destruct (@revert_restores_snapshot demo_env request demo_store st' BodyEmpty
              "5" "minutes" 10 demo_version 7 minutes_class)
    as (row & Hrow & Hkeys); [reflexivity..|].
  exists row. split; [exact Hrow|].
  split; [exact (Hkeys "text" (VStr "old text") eq_refl ltac:(discriminate))|].
  split; [exact (Hkeys "author" (VInt 1) eq_refl ltac:(discriminate))|].
  split; [exact (Hkeys "document_ptr" (VInt 10) eq_refl ltac:(discriminate))|].
  split; [reflexivity|].
  destruct (Hkeys "participants" (VPks [1; 2]) eq_refl ltac:(discriminate))
    as (pks & Hpks & Hset).
  injection Hpks as <-. exact Hset.
Defined.

(** * Further properties *)

(** ** Handlers that only read *)

Lemma get_object_or_error_state {E : Env} klass u perms title st :
  snd (get_object_or_error klass u perms title st) = st.
Proof.
  unfold get_object_or_error.
  destruct (documents_by_url_title klass title st) as [|pk [|? ?]]; [done| |done].
  by destruct (forallb _ perms).
Qed.

Lemma get_object_or_error_cases {E : Env} klass u perms title st :
  (∃ pk, get_object_or_error klass u perms title st = (Ok pk, st)) ∨
  (∃ e, get_object_or_error klass u perms title st = (Raise e, st)).
Proof.
  pose proof (get_object_or_error_state klass u perms title st) as Hst.
  destruct (get_object_or_error klass u perms title st) as [[pk|e] st'].
  all: simpl in Hst; subst st'; eauto.
Qed.

Lemma get_attachment_or_404_state pk st :
  snd (get_attachment_or_404 pk st) = st.
Proof.
  unfold get_attachment_or_404, bind, to_int.
  destruct (py_int pk) as [n|]; [|done]. simpl. by destruct (attachments st !! n).
Qed.

Lemma Attachment_objects_get_state pk st :
  snd (Attachment_objects_get pk st) = st.
Proof.
  unfold Attachment_objects_get, bind, to_int.
  destruct (py_int pk) as [n|]; [|done]. simpl. by destruct (attachments st !! n).
Qed.

Lemma document_str_state document key st :
  snd (document_str document key st) = st.
Proof.
  unfold document_str, bind, get_store.
  destruct (documents st !! document) as [row|]; [|done].
  by destruct (row !! key) as [[]|].
Qed.

(** The download endpoint writes nothing: whatever the request and
    whatever the outcome, the store is returned as it was. *)
Theorem download_attachment_read_only {E : Env} request st :
  snd (download_attachment request st) = st.
Proof.
  unfold download_attachment.
  destruct (negb (String.eqb (method request) "GET")); [done|].
  unfold bind at 1. unfold qd_getitem.
  destruct (qd_get (GET request) "attachment_id") as [attachment_id|]; [|done].
  unfold ret at 1. unfold bind.
  pose proof (get_attachment_or_404_state attachment_id st) as Hst.
  destruct (get_attachment_or_404 attachment_id st) as [[[n a]|e] st'];
    simpl in Hst; subst st'; [|done].
  by destruct (negb (has_perm _ _ _)).
Qed.

(** The image listing writes nothing. *)
Theorem get_attachments_read_only {E : Env} request document_id st :
  snd (get_attachments request document_id st) = st.
Proof.
  unfold get_attachments. destruct (negb (is_ajax request)); [done|].
  unfold bind, Document_objects_get.
  destruct (documents st !! document_id); [|done].
  by destruct (negb (can_be_changed_by _ _)).
Qed.

(** The minutes view page writes nothing. *)
Theorem view_read_only {E : Env} request title st :
  snd (Minutes.view request title st) = st.
Proof.
  unfold Minutes.view. unfold bind at 1.
  destruct (get_object_or_error_cases MinutesDocument (user request)
              [MinutesDocument_get_view_permission] title st) as [[pk ->]|[e ->]];
    [|done].
  unfold bind at 1. pose proof (document_str_state pk "text" st) as Hst.
  destruct (document_str pk "text" st) as [[source|e] st'];
    simpl in Hst; subst st'; [|done].
  by destruct (markdown_convert source).
Qed.

(** The minutes list writes nothing, also when it sends an anonymous
    visitor to the login page or fails on a document without a date. *)
Theorem list_read_only {E : Env} request st :
  snd (Minutes.list request st) = st.
Proof.
  unfold Minutes.list. destruct (negb (is_authenticated (user request))); [done|].
  unfold bind, get_store, lift.
  by destruct (group_by_year (user request) (minutes_by_date st) ∅).
Qed.

(** ** Uploads *)


(** ** More on reordering *)

Lemma set_index_twice i j a : set_index i (set_index j a) = set_index i a.
Proof. done. Qed.

Lemma final_index_cons e rest n :
  final_index (e :: rest) n
  = match final_index rest n with
    | Some i => Some i
    | None => if fst e =? n then Some (snd e) else None
    end.
Proof. done. Qed.

(** After a sequence of index writes an attachment carries the index of
    the last entry that names it, and is otherwise as before. *)
Lemma foldl_reindex_lookup entries m n :
  foldl reindex m entries !! n
  = match final_index entries n with
    | Some i => set_index i <$> m !! n
    | None => m !! n
    end.
Proof.
  revert m. induction entries as [|e rest IH]; intros m; [done|].
  cbn [foldl]. rewrite IH, final_index_cons.
  assert (reindex m e !! n
          = if fst e =? n then set_index (snd e) <$> m !! n else m !! n) as Hstep.
  { unfold reindex. destruct (Z.eqb_spec (fst e) n) as [<-|Hne].
    - destruct (m !! fst e) as [a|] eqn:Ha; [by rewrite lookup_insert_eq | by rewrite Ha].
    - destruct (m !! fst e); [by rewrite lookup_insert_ne | done]. }
  rewrite Hstep. destruct (final_index rest n) as [i|].
  - destruct (fst e =? n); [|done]. by destruct (m !! n).
  - by destruct (fst e =? n).
Qed.








Lemma update_one_missing {E : Env} request st item :
  entry_missing st item = true →
  update_one request item st = (Raise Http404, st).
Proof.
  unfold entry_missing. destruct item as [pk index]. simpl.
  destruct (py_int pk) as [n|] eqn:Hpk; [|done].
  destruct (attachments st !! n) as [a|] eqn:Ha; [done|]. intros _.
  unfold update_one. unfold bind at 1. unfold get_attachment_or_404.
  erewrite bind_ok by (by apply to_int_ok). by rewrite Ha.
Qed.

Lemma update_one_bad_key {E : Env} request st item :
  py_int (fst item) = None →
  update_one request item st = (Raise ValueError, st).
Proof.
  destruct item as [pk index]. simpl. intros Hpk.
  unfold update_one, bind, get_attachment_or_404, to_int. by rewrite Hpk.
Qed.

Lemma update_one_bad_index {E : Env} request st item :
  entry_bad_index request st item = true →
  update_one request item st = (Raise ValueError, st).
Proof.
  unfold entry_bad_index. destruct item as [pk index]. simpl.
  destruct (py_int pk) as [n|] eqn:Hpk; [|done].
  destruct (py_int index) as [i|] eqn:Hi; [done|].
  destruct (attachments st !! n) as [a|] eqn:Ha; [|done]. intros Hperm.
  unfold update_one. erewrite bind_ok by (by apply get_attachment_or_404_ok).
  cbv beta iota zeta. rewrite Hperm. cbn [negb].
  unfold bind, to_int. by rewrite Hi.
Qed.





Lemma update_one_frame {E : Env} request item st :
  snd (update_one request item st) = st ∨
  ∃ e, fst (update_one request item st) = Ok (Some tt) ∧
       snd (update_one request item st) = set_attachments (fun m => reindex m e) st.
Proof.
  destruct (py_int (fst item)) as [n|] eqn:Hpk;
    [|left; by rewrite update_one_bad_key].
  destruct (attachments st !! n) as [a|] eqn:Ha.
  2:{ left. rewrite update_one_missing; [done|].
      unfold entry_missing. by rewrite Hpk, Ha. }
  destruct (can_be_changed_by (att_document a) (user request)) eqn:Hperm.
  2:{ left. rewrite update_one_denied; [done|].
      unfold entry_denied. by rewrite Hpk, Ha, Hperm. }
  destruct (py_int (snd item)) as [i|] eqn:Hi.
  - right. destruct (update_one_permitted request st item) as (e & _ & Hrun).
    { unfold entry_permitted, parse_entry. by rewrite Hpk, Hi, Ha. }
    exists e. by rewrite Hrun.
  - left. rewrite update_one_bad_index; [done|].
    unfold entry_bad_index. by rewrite Hpk, Hi, Ha.
Qed.

Lemma update_all_frame {E : Env} request items st :
  ∃ entries,
    snd (update_all request items st)
    = set_attachments (fun m => foldl reindex m entries) st.
Proof.
  revert st. induction items as [|item items IH]; intros st.
  - exists []. simpl. by destruct st.
  - cbn [update_all]. unfold bind at 1.
    destruct (update_one_frame request item st) as [Hst|(e & Hres & Hst)].
    + destruct (update_one request item st) as [[[[]|]|err] st1]; simpl in Hst; subst st1.
      * destruct (IH st) as [entries Hentries]. by exists entries.
      * exists []. simpl. by destruct st.
      * exists []. simpl. by destruct st.
    + destruct (update_one request item st) as [[[[]|]|err] st1]; simpl in Hres, Hst;
        try discriminate. subst st1.
      destruct (IH (set_attachments (fun m => reindex m e) st)) as [entries Hentries].
      exists (e :: entries). rewrite Hentries. by rewrite set_attachments_twice.
Qed.

(** Whatever the request and however the handler ends, reordering touches
    nothing but index values: no attachment appears or disappears, each
    keeps its document, name, flag and file, and the rest of the store is
    as it was. *)
Theorem update_attachment_order_changes_indexes_only {E : Env} request st :
  let st' := snd (update_attachment_order request st) in
  documents st' = documents st ∧ relations st' = relations st ∧
  versions st' = versions st ∧ revisions st' = revisions st ∧
  files st' = files st ∧ messages st' = messages st ∧
  ∀ n, attachments st' !! n = attachments st !! n ∨
       ∃ i a, attachments st !! n = Some a ∧ attachments st' !! n = Some (set_index i a).
Proof.
  unfold update_attachment_order. destruct (negb (is_ajax request)).
  - simpl. repeat split. by left.
  - destruct (update_all_frame request (qd_iteritems (POST request)) st)
      as [entries ->].
    simpl. repeat split. intros n. rewrite foldl_reindex_lookup.
    destruct (final_index entries n) as [i|]; [|by left].
    destruct (attachments st !! n) as [a|]; [|by left]. right. by exists i, a.
Qed.

(** ** The flag, set and set again *)

Lemma change_flag_ok {E : Env} request st attachment_id raw v n a :
  is_ajax request = true →
  qd_get (POST request) "id" = Some attachment_id →
  qd_get (POST request) "no_direct_download" = Some raw →
  json_loads raw = Some v → v ≠ VNone →
  py_int attachment_id = Some n →
  attachments st !! n = Some a →
  can_be_changed_by (att_document a) (user request) = true →
  change_attachment_no_direct_download request st
    = (Ok (HttpResponse BodyEmpty),
       set_attachments (fun m => <[n := set_no_direct_download (py_bool v) a]> m) st).
Proof.
  intros Hajax Hid Hraw Hjson Hv Hint Ha Hperm.
  unfold change_attachment_no_direct_download.
  rewrite Hajax, (qd_get_truthy _ _ _ Hid). simpl. run. rewrite Hjson.
  erewrite bind_ok by (by apply Attachment_objects_get_ok).
  cbv beta iota zeta. rewrite Hperm. cbn [negb]. by destruct v.
Qed.

(** Two flag requests for the same attachment: the second value is the one
    stored, as if the first request had not been made; and a request that
    asks for the value the attachment already has leaves the store exactly
    as it was. *)
Theorem flag_last_write_wins {E : Env} first second st id1 raw1 v1 id2 raw2 v2 n a :
  is_ajax first = true →
  qd_get (POST first) "id" = Some id1 →
  qd_get (POST first) "no_direct_download" = Some raw1 →
  json_loads raw1 = Some v1 → v1 ≠ VNone → py_int id1 = Some n →
  can_be_changed_by (att_document a) (user first) = true →
  is_ajax second = true →
  qd_get (POST second) "id" = Some id2 →
  qd_get (POST second) "no_direct_download" = Some raw2 →
  json_loads raw2 = Some v2 → v2 ≠ VNone → py_int id2 = Some n →
  can_be_changed_by (att_document a) (user second) = true →
  attachments st !! n = Some a →
  change_attachment_no_direct_download second
    (snd (change_attachment_no_direct_download first st))
    = change_attachment_no_direct_download second st ∧
  (py_bool v2 = att_no_direct_download a →
   change_attachment_no_direct_download second
     (snd (change_attachment_no_direct_download first st))
     = (Ok (HttpResponse BodyEmpty), st)).
Proof.
  intros Ha1 Hi1 Hr1 Hj1 Hv1 Hn1 Hp1 Ha2 Hi2 Hr2 Hj2 Hv2 Hn2 Hp2 Ha.
  rewrite (change_flag_ok first st id1 raw1 v1 n a) by done. cbn [snd].
  rewrite (change_flag_ok second _ id2 raw2 v2 n (set_no_direct_download (py_bool v1) a))
    by (done || apply lookup_insert_eq).
  rewrite (change_flag_ok second st id2 raw2 v2 n a) by done.
  assert (set_attachments
            (fun m => <[n := set_no_direct_download (py_bool v2)
                               (set_no_direct_download (py_bool v1) a)]> m)
            (set_attachments (fun m => <[n := set_no_direct_download (py_bool v1) a]> m) st)
          = set_attachments (fun m => <[n := set_no_direct_download (py_bool v2) a]> m) st)
    as ->.
  { unfold set_attachments. simpl. by rewrite insert_insert_eq. }
  split; [done|]. intros Hsame. f_equal.
  unfold set_attachments. rewrite Hsame.
  assert (set_no_direct_download (att_no_direct_download a) a = a) as ->
    by (by destruct a).
  rewrite insert_id by done. by destruct st.
Qed.

Lemma flag_last_write_wins_witness :
  @change_attachment_no_direct_download demo_env
    (ajax_post alice [("id", "2"); ("no_direct_download", "false")])
    (snd (@change_attachment_no_direct_download demo_env
            (ajax_post alice [("id", "2"); ("no_direct_download", "true")]) demo_store))
  = (Ok (HttpResponse BodyEmpty), demo_store).
Proof.
  edestruct (@flag_last_write_wins demo_env
               (ajax_post alice [("id", "2"); ("no_direct_download", "true")])
               (ajax_post alice [("id", "2"); ("no_direct_download", "false")])
               demo_store "2" "true" (VBool true) "2" "false" (VBool false) 2
               {| att_document := 10; att_displayname := "notes.txt"; att_index := 1;
                  att_no_direct_download := false; att_file := "a/notes.txt" |})
    as [_ H]; [reflexivity || discriminate ..|].
  apply H. reflexivity.
Defined.

(** Whatever the request and however the handler ends, the flag endpoint
    changes at most the flag of one attachment. *)
Theorem change_flag_touches_one_flag {E : Env} request st :
  snd (change_attachment_no_direct_download request st) = st ∨
  ∃ n a b,
    attachments st !! n = Some a ∧
    snd (change_attachment_no_direct_download request st)
      = set_attachments (fun m => <[n := set_no_direct_download b a]> m) st.
Proof.
  destruct (is_ajax request) eqn:Hajax.
  2:{ left. unfold change_attachment_no_direct_download. rewrite Hajax.
      by rewrite orb_true_r. }
  destruct (qd_get (POST request) "id") as [attachment_id|] eqn:Hid.
  2:{ left. unfold change_attachment_no_direct_download.
      destruct (negb (qd_truthy (POST request)) || negb (is_ajax request)); [done|].
      unfold bind, qd_getitem. by rewrite Hid. }
  destruct (qd_get (POST request) "no_direct_download") as [raw|] eqn:Hraw.
  2:{ left. unfold change_attachment_no_direct_download.
      destruct (negb (qd_truthy (POST request)) || negb (is_ajax request)); [done|].
      run. unfold bind, qd_getitem. by rewrite Hraw. }
  destruct (json_loads raw) as [v|] eqn:Hjson.
  2:{ left. unfold change_attachment_no_direct_download.
      destruct (negb (qd_truthy (POST request)) || negb (is_ajax request)); [done|].
      run. by rewrite Hjson. }
  destruct (py_int attachment_id) as [n|] eqn:Hint.
  2:{ left. unfold change_attachment_no_direct_download.
      destruct (negb (qd_truthy (POST request)) || negb (is_ajax request)); [done|].
      run. rewrite Hjson. unfold bind, Attachment_objects_get, bind, to_int.
      by rewrite Hint. }
  destruct (attachments st !! n) as [a|] eqn:Ha.
  2:{ left. unfold change_attachment_no_direct_download.
      destruct (negb (qd_truthy (POST request)) || negb (is_ajax request)); [done|].
      run. rewrite Hjson. unfold bind at 1. unfold Attachment_objects_get.
      erewrite bind_ok by (by apply to_int_ok). by rewrite Ha. }
  destruct (can_be_changed_by (att_document a) (user request)) eqn:Hperm.
  2:{ left. unfold change_attachment_no_direct_download.
      destruct (negb (qd_truthy (POST request)) || negb (is_ajax request)); [done|].
      run. rewrite Hjson.
      erewrite bind_ok by (by apply Attachment_objects_get_ok).
      cbv beta iota zeta. by rewrite Hperm. }
  assert (v = VNone ∨ v ≠ VNone) as [->|Hv]
    by (destruct v; (by left) || (by right)).
  { left. unfold change_attachment_no_direct_download.
    destruct (negb (qd_truthy (POST request)) || negb (is_ajax request)); [done|].
    run. rewrite Hjson.
    erewrite bind_ok by (by apply Attachment_objects_get_ok).
    cbv beta iota zeta. by rewrite Hperm. }
  right. exists n, a, (py_bool v). split; [done|].
  by rewrite (change_flag_ok request st attachment_id raw v n a).
Qed.

(** ** Deleting an attachment *)

(** After a successful deletion the attachment's row and file are gone and
    every other attachment is as before; the download endpoint then answers
    NotFound for it, and a second deletion request raises the lookup's
    [DoesNotExist] (it is neither NotFound nor Forbidden). *)
Theorem delete_attachment_then {E : Env} request st attachment_id n a :
  is_ajax request = true →
  method request = "POST" →
  qd_get (POST request) "id" = Some attachment_id →
  py_int attachment_id = Some n →
  attachments st !! n = Some a →
  can_be_changed_by (att_document a) (user request) = true →
  ∃ st',
    delete_attachment request st = (Ok (HttpResponse BodyEmpty), st') ∧
    attachments st' = delete n (attachments st) ∧
    documents st' = documents st ∧
    files st' = files st ∖ {[os_path_join MEDIA_ROOT (att_file a)]} ∧
    messages st' = messages st ++ [ugettext "Successfully deleted Attachment!"] ∧
    (∀ download id,
       method download = "GET" →
       qd_get (GET download) "attachment_id" = Some id →
       py_int id = Some n →
       download_attachment download st' = (Raise Http404, st')) ∧
    delete_attachment request st' = (Raise DoesNotExist, st').
Proof.
  intros Hajax Hm Hid Hint Ha Hperm.
  eexists. split; [|split; [|split; [|split; [|split; [|split]]]]].
  - unfold delete_attachment. rewrite Hajax, Hm. simpl. run.
    erewrite bind_ok by (by apply Attachment_objects_get_ok).
    cbv beta iota zeta. rewrite Hperm. reflexivity.
  - done.
  - done.
  - done.
  - done.
  - intros download id Hmd Hq Hidn. unfold download_attachment.
    rewrite Hmd. simpl. run.
    unfold bind at 1. unfold get_attachment_or_404.
    erewrite bind_ok by (by apply to_int_ok). simpl.
    by rewrite lookup_delete_eq.
  - unfold delete_attachment. rewrite Hajax, Hm. simpl. run.
    unfold bind at 1. unfold Attachment_objects_get.
    erewrite bind_ok by (by apply to_int_ok). simpl.
    by rewrite lookup_delete_eq.
Qed.

Lemma delete_attachment_then_witness :
  ∃ st',
    @delete_attachment demo_env (ajax_post alice [("id", "2")]) demo_store
      = (Ok (HttpResponse BodyEmpty), st') ∧
    attachments st' !! 2 = None ∧
    attachments st' !! 1 = attachments demo_store !! 1 ∧
    @download_attachment demo_env (plain_get bob [("attachment_id", "2")]) st'
      = (Raise Http404, st') ∧
    @delete_attachment demo_env (ajax_post alice [("id", "2")]) st'
      = (Raise DoesNotExist, st').
Proof.
  edestruct (@delete_attachment_then demo_env (ajax_post alice [("id", "2")])
               demo_store "2" 2
               {| att_document := 10; att_displayname := "notes.txt"; att_index := 1;
                  att_no_direct_download := false; att_file := "a/notes.txt" |})
    as (st' & Hrun & Hatt & _ & _ & _ & Hdown & Hagain); [reflexivity..|].
  exists st'. split; [exact Hrun|]. rewrite Hatt.
  split; [reflexivity|]. split; [reflexivity|].
  split; [|exact Hagain].
  apply (Hdown (plain_get bob [("attachment_id", "2")]) "2"); reflexivity.
Defined.

(** ** More on reverting *)

(** The scan stops at the first version whose key the id names, also when
    a later version has the same key. *)
Theorem find_version_first_match before V after version_id :
  py_int version_id = Some (version_pk V) →
  Forall (fun v => version_pk v ≠ version_pk V) before →
  find_version (before ++ V :: after) version_id = Ok (Some V).
Proof.
  intros Hint Hbefore. induction Hbefore as [|v before Hv _ IH]; simpl; rewrite Hint.
  - by rewrite Z.eqb_refl.
  - destruct (Z.eqb_spec (version_pk v) (version_pk V)); [done | exact IH].
Qed.

Lemma find_version_first_match_witness :
  revision_comment <$> (match find_version twin_versions "5" with
                        | Ok found => found
                        | Raise _ => None
                        end) = Some "first".
Proof.
  rewrite (find_version_first_match
             [ {| version_pk := 4; version_object_id := 10; field_dict := ∅;
                  revision_comment := "other" |} ]
             {| version_pk := 5; version_object_id := 10; field_dict := demo_snapshot;
                revision_comment := "first" |}
             [ {| version_pk := 5; version_object_id := 10; field_dict := ∅;
                  revision_comment := "second" |} ] "5").
  - reflexivity.
  - reflexivity.
  - repeat constructor. discriminate.
Defined.

Lemma get_model_class_cases {E : Env} v st :
  (∃ cls, get_model_class v st = (Ok cls, st)) ∨
  (∃ e, get_model_class v st = (Raise e, st)).
Proof.
  unfold get_model_class. destruct v as [| |c|s| |]; try (right; by eexists).
  - destruct (content_type_model_class c); [left | right]; by eexists.
  - unfold bind, to_int. destruct (py_int s) as [c|]; [|right; by eexists].
    simpl. destruct (content_type_model_class c); [left | right]; by eexists.
Qed.

Lemma construct_cases cls kwargs st :
  (∃ inst, construct cls kwargs st = (Ok inst, st)) ∨
  (∃ e, construct cls kwargs st = (Raise e, st)).
Proof.
  unfold construct. destruct (accepts cls kwargs); [left | right]; by eexists.
Qed.

Lemma save_frame cls inst st r st' :
  save cls inst st = (r, st') → untouched_tables st st' ∧ revisions st' = revisions st.
Proof.
  unfold save, untouched_tables.
  destruct (inst !! "id") as [[| |pk| | |]|]; intros [= <- <-]; done.
Qed.

Lemma restore_loop_frame pk (items : list (string * Value)) st r st' :
  for_each items
    (fun item => bind (relation_clear pk (fst item))
                   (fun _ => relation_add pk (fst item) (snd item))) st = (r, st') →
  untouched_tables st st' ∧ revisions st' = revisions st ∧ documents st' = documents st.
Proof.
  revert st. induction items as [|[k v] rest IH]; intros st.
  - intros [= <- <-]. done.
  - cbn [for_each]. unfold bind at 1 2. simpl.
    destruct v; try (intros [= <- <-]; done).
    simpl. intros Hrun. apply IH in Hrun as ((? & ? & ? & ?) & ? & ?). done.
Qed.

(** The common frame of the two theorems below: a request that reaches the
    revision plugin. *)
Lemma revert_reaches_plugin {E : Env} request st r st' :
  revert request st = (r, st') →
  (st' = st ∧ ∀ body, r ≠ Ok (HttpResponse body)) ∨
  ∃ V st1 ok,
    In V (versions st) ∧ revision_revert V st = (ok, st1) ∧
    ((st' = st1 ∧ ∀ body, r ≠ Ok (HttpResponse body)) ∨
     (ok = true ∧ r = Ok (HttpResponse BodyEmpty) ∧
      untouched_tables st1 st' ∧
      revisions st' = revisions st1 ++ [{| rev_user := user_pk (user request);
                                           rev_comment := revert_comment V |}])).
Proof.
  destruct (is_ajax request) eqn:Hajax.
  2:{ unfold revert. rewrite Hajax. simpl. intros [= <- <-]. left. done. }
  destruct (qd_get (POST request) "id") as [version_id|] eqn:Hid.
  2:{ unfold revert. destruct (negb (is_ajax request) || negb (qd_truthy (POST request))).
      - intros [= <- <-]. left. done.
      - unfold bind, qd_getitem. rewrite Hid. intros [= <- <-]. left. done. }
  destruct (qd_get (POST request) "url_title") as [url_title|] eqn:Hurl.
  2:{ unfold revert. rewrite Hajax, (qd_get_truthy _ _ _ Hid). simpl. run.
      unfold bind, qd_getitem. rewrite Hurl. intros [= <- <-]. left. done. }
  destruct (get_object_or_error_cases Document (user request) ["change_document"]
              url_title st) as [[document Hdoc]|[e Hdoc]].
  2:{ unfold revert. rewrite Hajax, (qd_get_truthy _ _ _ Hid). simpl. run.
      erewrite bind_raise by exact Hdoc. intros [= <- <-]. left. done. }
  rewrite (revert_after_scan _ _ _ _ _ Hajax Hid Hurl Hdoc).
  destruct (find_version (get_for_object document st) version_id) as [[V|]|e] eqn:Hfind.
  2:{ intros [= <- <-]. left. done. }
  2:{ intros [= <- <-]. left. done. }
  apply find_version_some in Hfind as [HV _].
  apply filter_In in HV as [HV _].
  destruct (revision_revert V st) as [ok st1] eqn:Hplugin.
  intros Hrun. right. exists V, st1, ok. split; [done|]. split; [done|].
  destruct ok; cbn [negb] in Hrun.
  2:{ injection Hrun as <- <-. left. done. }
  destruct (field_dict V !! "polymorphic_ctype") as [ctype|].
  2:{ injection Hrun as <- <-. left. done. }
  cbv zeta in Hrun. unfold bind at 1 in Hrun.
  destruct (get_model_class_cases ctype st1) as [[cls Hcls]|[e Hcls]];
    rewrite Hcls in Hrun.
  2:{ injection Hrun as <- <-. left. done. }
  unfold bind at 1 in Hrun. unfold lift at 1 in Hrun.
  destruct (revert_fields cls _ _) as [[nf mm]|e].
  2:{ injection Hrun as <- <-. left. done. }
  cbn [fst snd] in Hrun. unfold bind at 1 in Hrun.
  destruct (construct_cases cls nf st1) as [[inst Hinst]|[e Hinst]];
    rewrite Hinst in Hrun.
  2:{ injection Hrun as <- <-. left. done. }
  unfold bind at 1 in Hrun. unfold atomic in Hrun. unfold bind at 1 in Hrun.
  destruct (save cls inst st1) as [[pk|e] st2] eqn:Hsave.
  2:{ injection Hrun as <- <-. left. done. }
  apply save_frame in Hsave as [Hs1 Hs2].
  unfold bind at 1 in Hrun. unfold restore_many_to_many in Hrun.
  destruct (for_each _ _ st2) as [[[]|e] st3] eqn:Hloop.
  2:{ injection Hrun as <- <-. left. done. }
  apply restore_loop_frame in Hloop as (Hl1 & Hl2 & _).
  unfold modify, ret in Hrun. injection Hrun as <- <-.
  right. split; [done|]. split; [done|].
  destruct Hs1 as (? & ? & ? & ?), Hl1 as (? & ? & ? & ?).
  split.
  - unfold untouched_tables. simpl. repeat split; congruence.
  - simpl. congruence.
Qed.

(** A revert that does not end in success leaves no partial write of its
    own: the store is the one it started from, or the one the revision
    plugin's revert of a stored version left; in particular a failure
    inside the transaction (saving, restoring the relations) undoes the
    saved document. *)
Theorem revert_failure_leaves_no_partial_write {E : Env} request st r st' :
  revert request st = (r, st') →
  (∀ body, r ≠ Ok (HttpResponse body)) →
  st' = st ∨ ∃ V, In V (versions st) ∧ st' = snd (revision_revert V st).
Proof.
  intros Hrun Hfail.
  destruct (revert_reaches_plugin _ _ _ _ Hrun)
    as [[-> _]|(V & st1 & ok & HV & Hplugin & [[-> _]|(_ & -> & _)])].
  - by left.
  - right. exists V. by rewrite Hplugin.
  - by destruct (Hfail BodyEmpty).
Qed.

Lemma revert_failure_leaves_no_partial_write_witness :
  let broken :=
    {| documents := documents demo_store; relations := relations demo_store;
       attachments := attachments demo_store;
       versions := [ {| version_pk := 5; version_object_id := 10;
                        field_dict := <["participants" := VInt 3]> demo_snapshot;
                        revision_comment := "first draft" |} ];
       revisions := []; files := ∅; messages := [] |} in
  let request := ajax_post alice [("id", "5"); ("url_title", "minutes")] in
  fst (@revert demo_env request broken) = Raise TypeError ∧
  snd (@revert demo_env request broken) = broken.
Proof.
  intros broken request. split; [reflexivity|].
  destruct (@revert_failure_leaves_no_partial_write demo_env request broken
              (Raise TypeError) (snd (@revert demo_env request broken)))
    as [H|(V & _ & H)]; [reflexivity | discriminate | exact H | exact H].
Defined.



(** ** The extension test at its edges *)

Lemma lower_ascii_twice c : lower_ascii (lower_ascii c) = lower_ascii c.
Proof. by destruct c as [[] [] [] [] [] [] [] []]. Qed.

Lemma lower_twice s : lower (lower s) = lower s.
Proof. induction s as [|c s IH]; simpl; [done|]. by rewrite lower_ascii_twice, IH. Qed.

Lemma split_lower_case s :
  lower s = s → Forall (fun w => lower w = w) (split "."%char s).
Proof.
  induction s as [|c s IH]; [by repeat constructor|].
  cbn [lower split]. intros [= Hc Hs]. specialize (IH Hs).
  destruct (Ascii.eqb c "."%char); [by constructor|].
  destruct (split "."%char s) as [|w ws].
  { constructor; [simpl; by rewrite Hc | constructor]. }
  apply Forall_cons in IH as [Hw Hws]. constructor; [|done].
  simpl. by rewrite Hc, Hw.
Qed.

Lemma last_Forall (P : string → Prop) l d : Forall P l → P d → P (List.last l d).
Proof.
  intros Hl Hd. induction Hl as [|x l Hx Hl IH]; [done|].
  simpl. destruct l; [done | exact IH].
Qed.

(** The extension the listing compares is always in lower case, so an
    allow-list entry that contains an upper-case letter is equal to the
    extension of no name at all. *)
Theorem file_type_is_lower_case name :
  lower (file_type name) = file_type name ∧
  ∀ t, lower t ≠ t → String.eqb (file_type name) t = false.
Proof.
  assert (lower (file_type name) = file_type name) as Hlow.
  { unfold file_type, last_item.
    apply (last_Forall (fun w => lower w = w)); [|done].
    apply split_lower_case, lower_twice. }
  split; [done|]. intros t Ht. apply String.eqb_neq. congruence.
Qed.

Lemma file_type_is_lower_case_witness :
  String.eqb (file_type "photo.PNG") "PNG" = false.
Proof. apply (file_type_is_lower_case "photo.PNG"). discriminate. Defined.

(** A display name without any dot is its own extension, and a name that
    ends in a dot has the empty extension. *)
Theorem file_type_without_extension name :
  (str_contains "." name = false → file_type name = lower name) ∧
  file_type (name +:+ ".") = EmptyString.
Proof.
  split.
  - intros Hdot. unfold file_type. by rewrite (split_no_sep _ (lower_no_dot _ Hdot)).
  - change (name +:+ ".") with (name +:+ "." +:+ "").
    by rewrite file_type_extension.
Qed.

Lemma file_type_without_extension_witness :
  file_type "PNG" = "png" ∧ @is_supported_image demo_env "PNG" = true.
Proof.
  split; [|reflexivity].
  apply (file_type_without_extension "PNG"). reflexivity.
Defined.

(** ** The attachments page *)

Lemma attachments_by_index_elem document st k b :
  (k, b) ∈ attachments_by_index document st ↔
  attachments st !! k = Some b ∧ att_document b = document.
Proof.
  unfold attachments_by_index. rewrite sort_by_perm.
  rewrite list_elem_of_In. apply document_attachments_In.
Qed.

Lemma attachments_by_index_sorted document st :
  StronglySorted (fun x y => att_index (snd x) ≤ att_index (snd y))
    (attachments_by_index document st).
Proof.
  unfold attachments_by_index.
  eapply StronglySorted_weaken; [|apply sort_by_sorted].
  - intros x y Hxy. by apply Z.leb_le.
  - intros x y Hxy. apply Z.leb_gt in Hxy. apply Z.leb_le. lia.
  - intros x y z Hxy Hyz. apply Z.leb_le in Hxy, Hyz. apply Z.leb_le. lia.
Qed.

(** When no upload succeeds, the attachments page renders every attachment
    of the document in ascending order of index, those hidden from direct
    download included; all that the view page lists is on it. *)
Theorem attachments_page_lists_all {E : Env}
    request title st document form attachment st1 row url_title :
  get_object_or_error MinutesDocument (user request)
    ["minutes.change_minutesdocument"] title st = (Ok document, st) →
  handle_attachment request document st = ((false, form, attachment), st1) →
  documents st1 !! document = Some row →
  row !! "url_title" = Some (VStr url_title) →
  ∃ listed,
    Minutes.attachments request title st
      = (Ok (Render "minutes_attachments.html"
               [("document", CtxDocument document);
                ("edit_url", CtxStr (reverse "minutes:attachments" [url_title]));
                ("form", CtxForm form);
                ("attachments", CtxAttachments listed);
                ("active_page", CtxStr "attachments");
                ("permission_warning",
                 CtxWarning (permission_warning (user request) document))]), st1) ∧
    (∀ k b, (k, b) ∈ listed ↔ attachments st1 !! k = Some b ∧ att_document b = document) ∧
    StronglySorted (fun x y => att_index (snd x) ≤ att_index (snd y)) listed ∧
    (∀ kb, kb ∈ direct_download_attachments document st1 → kb ∈ listed).
Proof.
  intros Hdoc Hupload Hrow Hurl.
  exists (attachments_by_index document st1). split; [|split; [|split]].
  - unfold Minutes.attachments. erewrite bind_ok by exact Hdoc.
    unfold bind at 1. rewrite Hupload.
    erewrite bind_ok by (by eapply document_str_ok).
    reflexivity.
  - intros k b. apply attachments_by_index_elem.
  - apply attachments_by_index_sorted.
  - intros [k b] Hkb. apply direct_download_attachments_elem in Hkb as (? & ? & _).
    by apply attachments_by_index_elem.
Qed.

Lemma attachments_page_lists_all_witness :
  let hidden :=
    set_attachments
      (fun m => <[2 := {| att_document := 10; att_displayname := "notes.txt";
                          att_index := 1; att_no_direct_download := true;
                          att_file := "a/notes.txt" |}]> m)
      {| documents := <[10 := minutes_row 10 "minutes" 2016 3 4]> ∅;
         relations := ∅; attachments := demo_attachments; versions := [];
         revisions := []; files := ∅; messages := [] |} in
  ∃ listed context,
    @Minutes.attachments demo_env (plain_get root []) "minutes" hidden
      = (Ok (Render "minutes_attachments.html" context), hidden) ∧
    In ("attachments", CtxAttachments listed) context ∧
    (∃ b, (2, b) ∈ listed ∧ att_no_direct_download b = true) ∧
    ∀ kb, kb ∈ direct_download_attachments 10 hidden → kb ∈ listed.
Proof.
  intros hidden.
  edestruct (@attachments_page_lists_all demo_env (plain_get root []) "minutes" hidden 10)
    as (listed & Hrun & Helem & _ & Hview); [reflexivity..|].
  exists listed. eexists. split; [exact Hrun|]. split; [|split; [|exact Hview]].
  - right. right. right. left. reflexivity.
  - eexists. split; [apply Helem; split; reflexivity | reflexivity].
Defined.

(** ** More on the minutes list *)

Lemma list_groups_by_year_witness :
  ∃ years,
    @Minutes.list demo_env (plain_get root []) demo_store_minutes
      = (Ok (Render "minutes_list.html" [("years", CtxYears years)]), demo_store_minutes) ∧
    StronglySorted (fun a b => fst b ≤ fst a) years ∧
    fst <$> years = [2016; 2015].
Proof.
  edestruct (@list_groups_by_year demo_env (plain_get root []) demo_store_minutes)
    as (years & Hresp & _ & Hsorted & _); [reflexivity..|].
  exists years. injection Hresp as <-. split; [reflexivity|]. split; [exact Hsorted|].
  reflexivity.
Defined.

Lemma minutes_by_date_NoDup {E : Env} st : NoDup (fst <$> minutes_by_date st).
Proof.
  unfold minutes_by_date. rewrite sort_by_perm.
  apply NoDup_fst_filter, NoDup_fst_map_to_list.
Qed.

(** No document is listed twice: the years rendered are pairwise different,
    no year's group repeats a document, and no document stands under two
    years. *)
Theorem list_shows_each_document_once {E : Env} request st years st' :
  is_authenticated (user request) = true →
  Minutes.list request st
    = (Ok (Render "minutes_list.html" [("years", CtxYears years)]), st') →
  NoDup (fst <$> years) ∧
  (∀ y l, (y, l) ∈ years → NoDup l) ∧
  (∀ y1 l1 y2 l2 pk,
     (y1, l1) ∈ years → (y2, l2) ∈ years → pk ∈ l1 → pk ∈ l2 → y1 = y2).
Proof.
  intros Hauth Hrun.
  destruct (list_render_spec _ _ _ _ Hauth Hrun)
    as (years' & [= <-] & _ & _ & Hgroups & Hmembers).
  split; [|split].
  - revert Hrun. unfold Minutes.list. rewrite Hauth. cbn [negb].
    erewrite bind_ok by reflexivity. unfold bind, lift.
    destruct (group_by_year _ _ _) as [grouped|]; [|discriminate].
    intros [= <- _]. unfold sort_years. rewrite sort_by_perm.
    apply NoDup_fst_map_to_list.
  - intros y l Hl. apply Hgroups in Hl as [_ ->].
    unfold listed_in_year. apply NoDup_fst_filter, minutes_by_date_NoDup.
  - intros y1 l1 y2 l2 pk H1 H2 Hpk1 Hpk2.
    apply Hgroups in H1 as [_ ->]. apply Hgroups in H2 as [_ ->].
    apply Hmembers in Hpk1 as (row1 & m1 & d1 & Hrow1 & _ & _ & Hdate1).
    apply Hmembers in Hpk2 as (row2 & m2 & d2 & Hrow2 & _ & _ & Hdate2).
    congruence.
Qed.

Lemma list_shows_each_document_once_witness :
  @Minutes.list demo_env (plain_get root []) demo_store_minutes
    = (Ok (Render "minutes_list.html"
             [("years", CtxYears [(2016, [12; 10]); (2015, [13])])]), demo_store_minutes) ∧
  NoDup [2016; 2015] ∧ NoDup [12; 10].
Proof.
  split; [reflexivity|].
  destruct (@list_shows_each_document_once demo_env (plain_get root [])
              demo_store_minutes [(2016, [12; 10]); (2015, [13])] demo_store_minutes)
    as (Hyears & Hgroup & _); [reflexivity..|].
  split; [exact Hyears|]. apply (Hgroup 2016). by left.
Defined.

Lemma date_leb_spec a b :
  date_leb a b = true ↔
  fst (fst a) < fst (fst b) ∨
  (fst (fst a) = fst (fst b) ∧
   (snd (fst a) < snd (fst b) ∨ (snd (fst a) = snd (fst b) ∧ snd a ≤ snd b))).
Proof.
  destruct a as [[y1 m1] d1], b as [[y2 m2] d2]. unfold date_leb. simpl.
  rewrite orb_true_iff, andb_true_iff, orb_true_iff, andb_true_iff.
  rewrite !Z.ltb_lt, !Z.eqb_eq, Z.leb_le. done.
Qed.

Lemma date_leb_total a b : date_leb a b = false → date_leb b a = true.
Proof.
  intros H. apply date_leb_spec.
  assert (¬ (date_leb a b = true)) as Hn by congruence.
  rewrite date_leb_spec in Hn. lia.
Qed.

Lemma date_leb_trans a b c :
  date_leb a b = true → date_leb b c = true → date_leb a c = true.
Proof. rewrite !date_leb_spec. lia. Qed.

Lemma newer_first_total a b : newer_first a b = false → newer_first b a = true.
Proof.
  unfold newer_first.
  destruct (row_date (snd a)) as [da|], (row_date (snd b)) as [db|]; try done.
  apply date_leb_total.
Qed.

Lemma newer_first_trans a b c :
  newer_first a b = true → newer_first b c = true → newer_first a c = true.
Proof.
  unfold newer_first.
  destruct (row_date (snd a)) as [da|], (row_date (snd b)) as [db|],
    (row_date (snd c)) as [dc|]; try done.
  intros Hab Hbc. by apply (date_leb_trans dc db da).
Qed.

Lemma StronglySorted_filter {A} (R : A → A → Prop) (f : A → bool) l :
  StronglySorted R l → StronglySorted R (List.filter f l).
Proof.
  induction 1 as [|x l Hl IH Hx]; simpl; [constructor|].
  destruct (f x); [|done]. constructor; [done|].
  apply Forall_forall. intros y Hy. apply list_elem_of_In, filter_In in Hy as [Hy _].
  rewrite Forall_forall in Hx. by apply Hx, list_elem_of_In.
Qed.

(** Within a year the documents stand newest first: each group is the key
    column of stored rows, each dated no earlier than the rows after it. *)
Theorem list_orders_each_year_by_date {E : Env} request st years st' :
  is_authenticated (user request) = true →
  Minutes.list request st
    = (Ok (Render "minutes_list.html" [("years", CtxYears years)]), st') →
  ∀ y l, (y, l) ∈ years →
    ∃ rows,
      l = fst <$> rows ∧
      StronglySorted not_older rows ∧
      ∀ kv, kv ∈ rows → documents st !! fst kv = Some (snd kv).
Proof.
  intros Hauth Hrun y l Hl.
  destruct (list_render_spec _ _ _ _ Hauth Hrun)
    as (years' & [= <-] & _ & _ & Hgroups & _).
  apply Hgroups in Hl as [_ ->]. unfold listed_in_year.
  eexists. split; [reflexivity|]. split.
  - assert (StronglySorted (fun a b => newer_first a b = true) (minutes_by_date st))
      as Hsorted.
    { unfold minutes_by_date. apply sort_by_sorted;
        [apply newer_first_total | apply newer_first_trans]. }
    apply (StronglySorted_filter _
             (fun kv =>
                has_perm (user request) (ArgDoc (fst kv))
                  (Some (ArgPerm MinutesDocument_get_view_permission))
                && match row_date (snd kv) with
                   | Some (y0, _, _) => y0 =? y
                   | None => false
                   end)) in Hsorted.
    revert Hsorted. generalize (minutes_by_date st). intros minutes.
    induction minutes as [|kv minutes IH]; simpl; [constructor|].
    destruct (has_perm _ _ _ && _) eqn:Hkv; [|exact IH].
    intros Hs. apply StronglySorted_inv in Hs as [Hs Hall].
    constructor; [by apply IH|].
    apply Forall_forall. intros kv' Hin. rewrite Forall_forall in Hall.
    specialize (Hall _ Hin). apply list_elem_of_In, filter_In in Hin as [_ Hkv'].
    apply andb_true_iff in Hkv as [_ Hkv]. apply andb_true_iff in Hkv' as [_ Hkv'].
    unfold not_older. unfold newer_first in Hall.
    destruct (row_date (snd kv)) as [da|]; [|done].
    destruct (row_date (snd kv')) as [db|]; [|done].
    by exists da, db.
  - intros [k row] Hin. apply list_elem_of_In, filter_In in Hin as [Hin _].
    apply list_elem_of_In, minutes_by_date_elem in Hin as [Hrow _]. done.
Qed.

Lemma list_orders_each_year_by_date_witness :
  @Minutes.list demo_env (plain_get root []) demo_store_minutes
    = (Ok (Render "minutes_list.html"
             [("years", CtxYears [(2016, [12; 10]); (2015, [13])])]), demo_store_minutes) ∧
  ∃ rows,
    [12; 10] = fst <$> rows ∧ StronglySorted not_older rows ∧
    ∀ kv, kv ∈ rows → documents demo_store_minutes !! fst kv = Some (snd kv).
Proof.
  split; [reflexivity|].
  apply (@list_orders_each_year_by_date demo_env (plain_get root [])
           demo_store_minutes [(2016, [12; 10]); (2015, [13])] demo_store_minutes
           eq_refl eq_refl 2016 [12; 10]).
  by left.
Defined.

(** ** Creating the same document again *)

Lemma column_is_int key n row :
  row !! key = Some (VInt n) → column_is key (VInt n) row = true.
Proof. intros H. unfold column_is. rewrite H. apply Z.eqb_refl. Qed.

Lemma column_is_str key s row :
  row !! key = Some (VStr s) → column_is key (VStr s) row = true.
Proof. intros H. unfold column_is. rewrite H. apply String.eqb_refl. Qed.

(** The creation looks the document up before it inserts: asked again for
    the document it has just created, it returns that document and the
    store stays as it is, so no second row appears. *)
Theorem get_or_create_twice {E : Env} u url_title title st :
  (∀ k r, documents st !! k = Some r → has_url_title url_title r = false) →
  accepts MinutesDocument_class (minutes_kwargs u url_title title u) = true →
  auto_pk MinutesDocument_class = true →
  ∃ pk st1,
    get_or_create u url_title title u st = (Ok pk, st1) ∧
    documents st !! pk = None ∧
    get_or_create u url_title title u st1 = (Ok pk, st1).
Proof.
  intros Hnone Hacc Hauto.
  rewrite (get_or_create_new _ _ _ _ Hnone Hacc Hauto).
  eexists _, _. split; [reflexivity|]. split; [apply next_pk_fresh|].
  set (pk := next_pk (documents st)). set (row := created_row u url_title title pk).
  destruct (created_row_columns u url_title title pk)
    as (Hinst & Htitle & Hurl & Hauthor & Hmod). fold row in Hinst, Htitle, Hurl, Hauthor, Hmod.
  unfold get_or_create. erewrite bind_ok by reflexivity. cbn [documents set_documents].
  set (f := fun kv : Z * gmap string Value =>
              instance_of MinutesDocument (snd kv)
              && column_is "author_id" (VInt (user_pk u)) (snd kv)
              && column_is "url_title" (VStr url_title) (snd kv)
              && column_is "title" (VStr title) (snd kv)
              && column_is "moderator_id" (VInt (user_pk u)) (snd kv)).
  assert (List.filter f (map_to_list (<[pk := row]> (documents st))) = [(pk, row)]) as ->.
  { apply Permutation_singleton_r.
    rewrite (List_filter_perm f _ _
               (map_to_list_insert (documents st) pk row (next_pk_fresh _))). simpl.
    unfold f at 1. cbn [snd].
    rewrite Hinst, (column_is_int _ _ _ Hauthor), (column_is_str _ _ _ Hurl),
      (column_is_str _ _ _ Htitle), (column_is_int _ _ _ Hmod). simpl.
    rewrite List_filter_nil; [done|]. intros [k r] Hin. unfold f. cbn [snd].
    apply list_elem_of_In, elem_of_map_to_list in Hin.
    specialize (Hnone _ _ Hin). unfold has_url_title in Hnone. unfold column_is at 2.
    destruct (r !! "url_title") as [[]|]; try by rewrite ?andb_false_r.
    rewrite Hnone. by rewrite ?andb_false_r. }
  reflexivity.
Qed.

Lemma get_or_create_twice_witness :
  ∃ pk st1,
    @get_or_create demo_env alice "new" "New" alice demo_store = (Ok pk, st1) ∧
    documents demo_store !! pk = None ∧
    @get_or_create demo_env alice "new" "New" alice st1 = (Ok pk, st1).
Proof.
  apply (@get_or_create_twice demo_env alice "new" "New" demo_store); [|reflexivity..].
  intros k r Hr.
  change (documents demo_store) with ({[ 10 := demo_row ]} : gmap Z (gmap string Value))
    in Hr.
  apply lookup_singleton_Some in Hr as [_ <-]. vm_compute. reflexivity.
Defined.

(** ** Missing fields and unchecked methods *)

(** A request that lacks a form or query field a handler reads ends in
    [KeyError], before any lookup or permission check, and the store is
    as it was. *)
Theorem missing_field_raises_key_error {E : Env} request st :
  (is_ajax request = true → qd_truthy (POST request) = true →
   qd_get (POST request) "id" = None →
   revert request st = (Raise KeyError, st) ∧
   change_attachment_no_direct_download request st = (Raise KeyError, st)) ∧
  (is_ajax request = true → ∀ version_id,
   qd_get (POST request) "id" = Some version_id →
   qd_get (POST request) "url_title" = None →
   revert request st = (Raise KeyError, st)) ∧
  (is_ajax request = true → ∀ attachment_id,
   qd_get (POST request) "id" = Some attachment_id →
   qd_get (POST request) "no_direct_download" = None →
   change_attachment_no_direct_download request st = (Raise KeyError, st)) ∧
  (is_ajax request = true → method request = "POST" →
   qd_get (POST request) "document" = None →
   create_attachment request st = (Raise KeyError, st)) ∧
  (is_ajax request = true → method request = "POST" →
   qd_get (POST request) "id" = None →
   delete_attachment request st = (Raise KeyError, st)) ∧
  (method request = "GET" →
   qd_get (GET request) "attachment_id" = None →
   download_attachment request st = (Raise KeyError, st)).
Proof.
  split; [|split; [|split; [|split; [|split]]]].
  - intros Hajax Hpost Hid. unfold revert, change_attachment_no_direct_download.
    rewrite Hajax, Hpost. simpl. unfold bind, qd_getitem. by rewrite Hid.
  - intros Hajax version_id Hid Hurl. unfold revert.
    rewrite Hajax, (qd_get_truthy _ _ _ Hid). simpl. run.
    unfold bind, qd_getitem. by rewrite Hurl.
  - intros Hajax attachment_id Hid Hraw. unfold change_attachment_no_direct_download.
    rewrite Hajax, (qd_get_truthy _ _ _ Hid). simpl. run.
    unfold bind, qd_getitem. by rewrite Hraw.
  - intros Hajax Hm Hdoc. unfold create_attachment. rewrite Hajax, Hm. simpl.
    unfold bind, qd_getitem. by rewrite Hdoc.
  - intros Hajax Hm Hid. unfold delete_attachment. rewrite Hajax, Hm. simpl.
    unfold bind, qd_getitem. by rewrite Hid.
  - intros Hm Hid. unfold download_attachment. rewrite Hm. simpl.
    unfold bind, qd_getitem. by rewrite Hid.
Qed.

Lemma missing_field_raises_key_error_witness :
  @revert demo_env (ajax_post alice [("url_title", "minutes")]) demo_store
    = (Raise KeyError, demo_store) ∧
  @download_attachment demo_env (plain_get bob []) demo_store
    = (Raise KeyError, demo_store).
Proof.
  split.
  - destruct (@missing_field_raises_key_error demo_env
                (ajax_post alice [("url_title", "minutes")]) demo_store) as (H & _).
    apply H; reflexivity.
  - destruct (@missing_field_raises_key_error demo_env (plain_get bob []) demo_store)
      as (_ & _ & _ & _ & _ & H).
    apply H; reflexivity.
Defined.

(** The reorder endpoint does not look at the method: an asynchronous
    request that is not a POST carries no form data, so the loop runs over
    nothing and the answer is success with the store as it was. *)
Theorem update_attachment_order_ignores_method {E : Env} request st :
  is_ajax request = true →
  method request ≠ "POST" →
  update_attachment_order request st = (Ok (HttpResponse BodyEmpty), st).
Proof.
  intros Hajax Hm. unfold update_attachment_order.
  rewrite Hajax, (POST_not_post _ Hm). reflexivity.
Qed.

Lemma update_attachment_order_ignores_method_witness :
  @update_attachment_order demo_env
    {| method := "DELETE"; is_ajax := true; query := []; form := [("1", "7")];
       user := bob |} demo_store
  = (Ok (HttpResponse BodyEmpty), demo_store).
Proof.
  apply (@update_attachment_order_ignores_method demo_env); [reflexivity | discriminate].
Defined.
